(** * Student Exchange Programs API: the server bootstrap module (server.py)

    A shallow embedding of [server.py].  The module reads its configuration
    from the process environment, builds a database client, a FastAPI
    application with a CORS middleware and a root endpoint, and registers a
    lifespan hook around the external [initialize_database] routine.

    Conventions of the embedding:
    - [os.environ] is a finite map from names to values;
    - module-level code runs in a small state-and-exception monad [M] over the
      process (its environment and the calls it has made to libraries);
    - the lifespan hook, an asynchronous generator, is a transition function
      over its suspension points;
    - calls into third-party libraries (logging, cloudinary, motor, uvicorn,
      dotenv) are recorded as events with their arguments; the two modules of
      the repository that this file imports, [routes] and [database], are
      parameters ([world]). *)

From Stdlib Require Import ZArith String Ascii List.
From stdpp Require Import base option gmap strings list fin_maps pretty.

(** ** Python values used by the module *)

Module Py.

(** Exception classes.  The first group derives from [Exception]; the second
    derives from [BaseException] only. *)
Inductive exn_class : Type :=
| ValueError
| ImportError
| RuntimeError
| OtherException (name : string)
| KeyboardInterrupt
| SystemExit
| CancelledError
| GeneratorExit.

Record exn : Type := Exn { class_of : exn_class; exn_str : string }.

(** [isinstance(e, Exception)], the test an [except Exception] clause makes. *)
Definition isinstance_Exception (e : exn) : bool :=
  match class_of e with
  | KeyboardInterrupt | SystemExit | CancelledError | GeneratorExit => false
  | ValueError | ImportError | RuntimeError | OtherException _ => true
  end.

Inductive outcome (A : Type) : Type :=
| Ok (a : A)
| Raise (e : exn).
Arguments Ok {A} a.
Arguments Raise {A} e.

(** Truth value of a string: only the empty string is false. *)
Definition truthy (s : string) : bool :=
  match s with EmptyString => false | String _ _ => true end.

(** [str(x)] for an optional string, as an f-string renders it. *)
Definition str_of_optional (o : option string) : string :=
  match o with Some s => s | None => "None" end.

(** *** [int(s)] on a string, base 10

    Leading and trailing whitespace is dropped, one sign is allowed, and
    single underscores may separate digits.  Strings are taken to be ASCII,
    and numerals to be within the length CPython accepts (4300 digits unless
    configured otherwise): its refusal of longer ones is not modelled. *)

Definition is_space (a : ascii) : bool :=
  let n := nat_of_ascii a in
  ((9 <=? n)%nat && (n <=? 13)%nat) || (n =? 32)%nat.

Definition is_digit (a : ascii) : bool :=
  let n := nat_of_ascii a in (48 <=? n)%nat && (n <=? 57)%nat.

Definition digit_value (a : ascii) : Z := Z.of_nat (nat_of_ascii a) - 48.

Fixpoint lstrip (s : string) : string :=
  match s with
  | String a s' => if is_space a then lstrip s' else s
  | EmptyString => EmptyString
  end.

Fixpoint all_space (s : string) : bool :=
  match s with
  | String a s' => is_space a && all_space s'
  | EmptyString => true
  end.

Inductive digits_state : Type := NoDigit | AfterDigit | AfterUnderscore.

Fixpoint int_digits (st : digits_state) (acc : Z) (s : string) : option Z :=
  match s with
  | EmptyString =>
      match st with AfterDigit => Some acc | _ => None end
  | String a s' =>
      if is_digit a then int_digits AfterDigit (10 * acc + digit_value a) s'
      else if Ascii.eqb a "_" then
        match st with
        | AfterDigit => int_digits AfterUnderscore acc s'
        | _ => None
        end
      else if is_space a then
        match st with
        | AfterDigit => if all_space s' then Some acc else None
        | _ => None
        end
      else None
  end.

Definition int (s : string) : option Z :=
  match lstrip s with
  | String "-" s' => Z.opp <$> int_digits NoDigit 0 s'
  | String "+" s' => int_digits NoDigit 0 s'
  | s' => int_digits NoDigit 0 s'
  end.

(** The message quotes the string as it is (Python prints its [repr]). *)
Definition int_error (s : string) : exn :=
  Exn ValueError ("invalid literal for int() with base 10: '" +:+ s +:+ "'").

End Py.
Import Py.

(** ** Calls into libraries, in the order the process makes them *)

Inductive event : Type :=
| LoadDotenv (path : string)
| BasicConfig (level format : string)
| CloudinaryConfig (cloud_name api_key api_secret : option string) (secure : bool)
| CloudinaryConfigRead      (* [cloudinary.config()] without keywords *)
| LogInfo (msg : string)
| LogError (msg : string)
| AsyncIOMotorClient (url : string)
| InitializeDatabase
| ClientClose
| UvicornRun (app host : string) (port : Z) (reload : bool).

Global Instance event_eq_dec : EqDecision event.
Proof. solve_decision. Defined.

Definition is_close (e : event) : bool :=
  match e with ClientClose => true | _ => false end.

Definition is_init (e : event) : bool :=
  match e with InitializeDatabase => true | _ => false end.

Definition is_server_start (e : event) : bool :=
  match e with UvicornRun _ _ _ _ => true | _ => false end.

Definition is_client_ctor (e : event) : bool :=
  match e with AsyncIOMotorClient _ => true | _ => false end.

Definition is_load_dotenv (e : event) : bool :=
  match e with LoadDotenv _ => true | _ => false end.

Definition count (f : event → bool) (t : list event) : nat :=
  length (filter (λ e, f e = true) t).

(** ** The lifespan hook (server.py, [lifespan])

    [lifespan] is an asynchronous generator wrapped by [asynccontextmanager].
    It can be suspended at either of its two [yield] statements; a driver
    resumes it ([anext]), raises an exception at the suspension point
    ([athrow]) or closes it ([aclose]). *)

Module Lifespan.

Inductive gen_state : Type :=
| NotStarted
| AtFirstYield     (* suspended at the [yield] of the try block *)
| AtSecondYield    (* suspended at the [yield] of the except clause *)
| Finished.

Inductive gen_op : Type :=
| Anext
| Athrow (e : exn)
| Aclose.

Inductive gen_result : Type :=
| Yielded
| StopAsyncIteration
| Raised (e : exn).

Definition started_msg : string :=
  "🚀 Student Exchange Programs API started successfully".
Definition failed_msg (e : exn) : string :=
  "❌ Failed to initialize database: " +:+ exn_str e.
Definition closed_msg : string := "📪 Database connection closed".

Definition step_result : Type := list event * gen_state * gen_result.

Definition is_finished (s : gen_state) : bool :=
  match s with Finished => true | _ => false end.

Definition is_suspended (s : gen_state) : bool :=
  match s with AtFirstYield | AtSecondYield => true | _ => false end.

(** The [finally] clause, entered when control leaves the statement, with
    the result [r] the generator then gives to its driver. *)
Definition finally_clause (r : gen_result) : step_result :=
  ([ClientClose; LogInfo closed_msg], Finished, r).

(** An exception [e] raised inside the try block, by the awaited routine or
    at the first [yield]: [except Exception as e] handles it when it is an
    [Exception], otherwise the [finally] clause runs and [e] propagates. *)
Definition raised_in_try (e : exn) : step_result :=
  if isinstance_Exception e
  then ([LogError (failed_msg e)], AtSecondYield, Yielded)
  else finally_clause (Raised e).

Section WithInit.
(** What awaiting [initialize_database()] does on this run. *)
Variable initialize_database : outcome unit.

Definition anext (s : gen_state) : step_result :=
  match s with
  | NotStarted =>
      match initialize_database with
      | Ok _ => ([InitializeDatabase; LogInfo started_msg], AtFirstYield, Yielded)
      | Raise e =>
          let '(t, s', r) := raised_in_try e in (InitializeDatabase :: t, s', r)
      end
  | AtFirstYield => finally_clause StopAsyncIteration
  | AtSecondYield => finally_clause StopAsyncIteration
  | Finished => ([], Finished, StopAsyncIteration)
  end.

(** On a generator that has finished, CPython's [athrow] does nothing and
    answers [None], which its caller cannot tell from a [yield]. *)
Definition athrow (e : exn) (s : gen_state) : step_result :=
  match s with
  | NotStarted => ([], Finished, Raised e)
  | AtFirstYield => raised_in_try e
  | AtSecondYield => finally_clause (Raised e)
  | Finished => ([], Finished, Yielded)
  end.

(** [aclose()] throws [GeneratorExit] into a suspended generator and
    absorbs it when it comes back. *)
Definition aclose (s : gen_state) : list event * gen_state * outcome unit :=
  match s with
  | NotStarted | Finished => ([], Finished, Ok tt)
  | AtFirstYield | AtSecondYield =>
      let '(t, s', r) := athrow (Exn GeneratorExit "") s in
      match r with
      | Yielded =>
          (t, s', Raise (Exn RuntimeError "async generator ignored GeneratorExit"))
      | StopAsyncIteration => (t, s', Ok tt)
      | Raised e =>
          match class_of e with
          | GeneratorExit => (t, s', Ok tt)
          | _ => (t, s', Raise e)
          end
      end
  end.

(** The events and the next state of one operation, whatever it answers. *)
Definition step (op : gen_op) (s : gen_state) : list event * gen_state :=
  match op with
  | Anext => fst (anext s)
  | Athrow e => fst (athrow e s)
  | Aclose => fst (aclose s)
  end.

(** A driver's whole interaction with the generator. *)
Fixpoint drive (ops : list gen_op) (s : gen_state) : list event * gen_state :=
  match ops with
  | [] => ([], s)
  | op :: ops' =>
      let '(t, s') := step op s in
      let '(t', s'') := drive ops' s' in
      (t ++ t', s'')
  end.

(** [asynccontextmanager]: [__aenter__] runs the generator to its first
    [yield]; [__aexit__] resumes it when the body of the [async with]
    ended normally, and throws the body's exception into it otherwise. *)
Definition aenter (s : gen_state) : list event * gen_state * outcome unit :=
  let '(t, s', r) := anext s in
  match r with
  | Yielded => (t, s', Ok tt)
  | StopAsyncIteration => (t, s', Raise (Exn RuntimeError "generator didn't yield"))
  | Raised e => (t, s', Raise e)
  end.

Definition aexit (body : outcome unit) (s : gen_state)
  : list event * gen_state * outcome unit :=
  match body with
  | Ok _ =>
      let '(t, s', r) := anext s in
      match r with
      | StopAsyncIteration => (t, s', Ok tt)
      | Yielded => (t, s', Raise (Exn RuntimeError "generator didn't stop"))
      | Raised e => (t, s', Raise e)
      end
  | Raise e =>
      let '(t, s', r) := athrow e s in
      match r with
      | StopAsyncIteration => (t, s', Ok tt)
      | Yielded =>
          (t, s', Raise (Exn RuntimeError "generator didn't stop after athrow()"))
      | Raised e' => (t, s', Raise e')
      end
  end.

Record lifecycle : Type := Lifecycle {
  startup_events : list event;
  startup : outcome unit;        (* [Ok]: the server goes on to serve *)
  shutdown_events : list event;
  shutdown : outcome unit;
  final_state : gen_state
}.

(** [async with lifespan(app): body], where [body] is the serving phase:
    it ends normally when the server is told to stop. *)
Definition run (body : outcome unit) : lifecycle :=
  let '(t1, s1, r1) := aenter NotStarted in
  match r1 with
  | Ok _ =>
      let '(t2, s2, r2) := aexit body s1 in
      Lifecycle t1 r1 t2 r2 s2
  | Raise e => Lifecycle t1 r1 [] (Raise e) s1
  end.

Definition all_events (l : lifecycle) : list event :=
  startup_events l ++ shutdown_events l.





End WithInit.

End Lifespan.

(** ** The HTTP side: routes, the root endpoint and the CORS middleware *)

Module Http.

Local Unset Elimination Schemes.
Inductive json : Type :=
| JString (s : string)
| JObject (fields : list (string * json)).
Local Set Elimination Schemes.

(** A request, with the two headers the CORS middleware looks at. *)
Record request : Type := Request {
  req_method : string;
  req_path : string;
  req_origin : option string;
  req_access_control_request_method : option string;
  req_body : string
}.

Record response : Type := Response { status : Z; body : json }.

(** What becomes of a request.  Only the replies of handlers are spelled
    out; what the framework itself sends in the other cases is its own. *)
Inductive answer : Type :=
| Preflight                  (* answered by the CORS middleware *)
| Document (path : string)   (* a documentation page of the framework *)
| Reply (r : response)       (* the value a handler returned *)
| Failure (e : exn)          (* the handler raised [e] *)
| Unrouted.                  (* no route takes the request *)

(** A route as the application keeps it.  The routes of the router
    collaborator come with their own matching and handlers. *)
Record route : Type := Route {
  route_path : string;
  route_methods : list string;
  matches : request → bool;
  status_code : Z;
  endpoint : request → outcome json
}.

(** The keyword arguments given to [CORSMiddleware]. *)
Record cors_options : Type := CorsOptions {
  allow_credentials : bool;
  allow_origins : list string;
  allow_methods : list string;
  allow_headers : list string
}.

Inductive middleware : Type :=
| CORSMiddleware (options : cors_options).

(** Starlette's [CORSMiddleware.is_allowed_origin], with no origin regex:
    the wildcard in the list allows every origin, otherwise the origin must
    be in the list. *)
Definition allow_all_origins (o : cors_options) : bool :=
  bool_decide ("*" ∈ allow_origins o).

Definition is_allowed_origin (o : cors_options) (origin : string) : bool :=
  if allow_all_origins o then true
  else bool_decide (origin ∈ allow_origins o).

(** The routes of an application: those the framework registers for its
    documentation, which answer GET and HEAD on their path, and those of
    the program. *)
Inductive app_route : Type :=
| FrameworkRoute (path : string)
| UserRoute (r : route).

Record FastAPI : Type := {
  title : string;
  description : string;
  version : string;
  lifespan : Lifespan.gen_op → Lifespan.gen_state → list event * Lifespan.gen_state;
  user_middleware : list middleware;
  routes : list app_route
}.

(** The routes [FastAPI.__init__] registers with its default URLs. *)
Definition framework_routes : list app_route :=
  [FrameworkRoute "/openapi.json"; FrameworkRoute "/docs";
   FrameworkRoute "/docs/oauth2-redirect"; FrameworkRoute "/redoc"].

(** [FastAPI(title=..., description=..., version=..., lifespan=...)] *)
Definition new_app (t d v : string) l : FastAPI :=
  {| title := t; description := d; version := v; lifespan := l;
     user_middleware := []; routes := framework_routes |}.

(** [app.add_middleware(cls, **options)] puts the middleware in front. *)
Definition add_middleware (m : middleware) (a : FastAPI) : FastAPI :=
  {| title := title a; description := description a; version := version a;
     lifespan := lifespan a;
     user_middleware := m :: user_middleware a; routes := routes a |}.

(** [app.include_router(router)] appends the router's routes. *)
Definition include_router (r : list route) (a : FastAPI) : FastAPI :=
  {| title := title a; description := description a; version := version a;
     lifespan := lifespan a;
     user_middleware := user_middleware a;
     routes := routes a ++ (UserRoute <$> r) |}.

(** [@app.get(path)] on a function without parameters: the route answers
    GET on exactly [path], with the default status code 200, and the
    function receives nothing of the request. *)
Definition get_route (path : string) (f : unit → outcome json) : route :=
  {| route_path := path;
     route_methods := ["GET"];
     matches := λ req,
       bool_decide (req_method req = "GET") && bool_decide (req_path req = path);
     status_code := 200;
     endpoint := λ _, f tt |}.

Definition get (path : string) (f : unit → outcome json) (a : FastAPI) : FastAPI :=
  {| title := title a; description := description a; version := version a;
     lifespan := lifespan a;
     user_middleware := user_middleware a;
     routes := routes a ++ [UserRoute (get_route path f)] |}.

(** Answer of one route: the handler's value under the route's status
    code, or the exception the handler raised. *)
Definition call_route (r : route) (req : request) : answer :=
  match endpoint r req with
  | Ok j => Reply (Response (status_code r) j)
  | Raise e => Failure e
  end.

Definition framework_route_matches (path : string) (req : request) : bool :=
  bool_decide (req_path req = path)
  && (bool_decide (req_method req = "GET") || bool_decide (req_method req = "HEAD")).

Definition app_route_matches (ar : app_route) (req : request) : bool :=
  match ar with
  | FrameworkRoute path => framework_route_matches path req
  | UserRoute r => matches r req
  end.

(** The router answers with the first route that matches the request in
    full. *)
Fixpoint dispatch (rs : list app_route) (req : request) : answer :=
  match rs with
  | [] => Unrouted
  | FrameworkRoute path :: rs' =>
      if framework_route_matches path req then Document path else dispatch rs' req
  | UserRoute r :: rs' =>
      if matches r req then call_route r req else dispatch rs' req
  end.

(** [CORSMiddleware.__call__]: a request with an [Origin] header, the method
    OPTIONS and an [Access-Control-Request-Method] header is a preflight,
    which the middleware answers itself; any other request goes on, and the
    status and body of its answer are left as they are. *)
Definition is_preflight (req : request) : bool :=
  bool_decide (req_method req = "OPTIONS")
  && bool_decide (is_Some (req_origin req))
  && bool_decide (is_Some (req_access_control_request_method req)).

Fixpoint through_middleware (ms : list middleware) (inner : request → answer)
    (req : request) : answer :=
  match ms with
  | [] => inner req
  | CORSMiddleware _ :: ms' =>
      if is_preflight req then Preflight else through_middleware ms' inner req
  end.

Definition serve (a : FastAPI) (req : request) : answer :=
  through_middleware (user_middleware a) (dispatch (routes a)) req.

End Http.
Import Http.

(** ** The process and the monad of module-level code *)

Record process : Type := Process {
  os_environ : gmap string string;
  trace : list event
}.

Definition M (A : Type) : Type := process → process * outcome A.

Global Instance M_ret : MRet M := λ A a p, (p, Ok a).

Global Instance M_bind : MBind M := λ A B f m p,
  match m p with
  | (p', Ok a) => f a p'
  | (p', Raise e) => (p', Raise e)
  end.

Definition raise {A} (e : exn) : M A := λ p, (p, Raise e).

Definition lift {A} (o : outcome A) : M A := λ p, (p, o).

Definition emit (e : event) : M unit :=
  λ p, (Process (os_environ p) (trace p ++ [e]), Ok tt).

(** [try: body / except Exception: handler] *)
Definition try_except {A} (body : M A) (handler : exn → M A) : M A := λ p,
  match body p with
  | (p', Ok a) => (p', Ok a)
  | (p', Raise e) => if isinstance_Exception e then handler e p' else (p', Raise e)
  end.

(** [os.getenv(key)] and [os.getenv(key, default)] *)
Definition getenv (key : string) : M (option string) :=
  λ p, (p, Ok (os_environ p !! key)).

Definition getenv_default (key dflt : string) : M string :=
  λ p, (p, Ok (default dflt (os_environ p !! key))).

(** [load_dotenv(path)]: every binding of the file whose name the environment
    does not have yet is added to it; a binding already present wins. *)
Definition load_dotenv (path : string) (file : gmap string string) : M unit :=
  λ p, (Process (os_environ p ∪ file) (trace p ++ [LoadDotenv path]), Ok tt).

(** ** What the module finds around it *)

(** The names the module takes from the [routes] and [database] modules. *)
Record collaborators : Type := Collaborators {
  api_router : list route;
  initialize_database : outcome unit     (* what awaiting the routine does *)
}.

Record world : Type := World {
  (** importing [backend.routes] and [backend.database] (from the repo root):
      the name imported, or the exception raised *)
  backend_routes : outcome (list route);
  backend_database : outcome (outcome unit);
  (** importing [routes] and [database] (from inside backend/) *)
  local_routes : outcome (list route);
  local_database : outcome (outcome unit);
  (** [Path(__file__).parent] and the bindings of the [.env] file there, as
      python-dotenv resolves them in this process (none when there is no
      such file) *)
  root_dir : string;
  dotenv_file : gmap string string;
  (** [__name__ == "__main__"] *)
  run_as_main : bool
}.

(** ** server.py *)

Module Server.

Definition mongo_error : exn :=
  Exn ValueError "❌ MONGO_URL not found in environment variables.".

Definition log_format : string :=
  "%(asctime)s - %(name)s - %(levelname)s - %(message)s".

Record motor_client : Type := MotorClient { client_url : string }.
Record database : Type := Database { db_client : motor_client; name : string }.

(** The names the module defines. *)
Record module : Type := Module_ {
  mongo_url : string;
  db_name : string;
  client : motor_client;
  db : database;
  app : FastAPI
}.

(** Lines 13-20: the package-style imports, and the local ones when any of
    the former raises an [Exception]. *)
Definition import_collaborators (w : world) : M collaborators :=
  try_except
    (r ← lift (backend_routes w);
     i ← lift (backend_database w);
     mret (Collaborators r i))
    (λ _,
     r ← lift (local_routes w);
     i ← lift (local_database w);
     mret (Collaborators r i)).

(** Lines 23-26 *)
Definition load_environment (w : world) : M unit :=
  render ← getenv "RENDER";
  match render with
  | None => load_dotenv (root_dir w +:+ "/.env") (dotenv_file w)
  | Some _ => mret tt
  end.

(** Lines 29-33 *)
Definition configure_logging : M unit :=
  emit (BasicConfig "INFO" log_format).

(** Lines 38-44 *)
Definition configure_cloudinary : M unit :=
  cloud_name ← getenv "CLOUDINARY_CLOUD_NAME";
  api_key ← getenv "CLOUDINARY_API_KEY";
  api_secret ← getenv "CLOUDINARY_API_SECRET";
  emit (CloudinaryConfig cloud_name api_key api_secret true);;
  (* line 44 calls [cloudinary.config()] again, for the cloud name it holds *)
  emit CloudinaryConfigRead;;
  emit (LogInfo ("Cloudinary ready: " +:+ str_of_optional cloud_name)).

(** Lines 48-54 *)
Definition mongo_setup : M (string * string * motor_client * database) :=
  mongo_url ← getenv "MONGO_URL";
  match mongo_url with
  | None => raise mongo_error
  | Some url =>
      if negb (truthy url) then raise mongo_error
      else
        db_name ← getenv_default "DB_NAME" "medicapsoia";
        emit (AsyncIOMotorClient url);;
        let client := MotorClient url in
        mret (url, db_name, client, Database client db_name)
  end.

(** Lines 82-95 *)
Definition cors : cors_options :=
  {| allow_credentials := true;
     allow_origins :=
       ["https://io.medicaps.ac.in";
        "http://localhost:3000";
        "http://127.0.0.1:3000";
        "http://localhost:3001";
        "http://127.0.0.1:3001";
        "*"];
     allow_methods := ["GET"; "POST"; "PUT"; "DELETE"; "OPTIONS"];
     allow_headers := ["*"] |}.

(** Lines 101-103 *)
Definition root (_ : unit) : outcome json :=
  Ok (JObject [("message", JString "Student Exchange Programs API - Medi-Caps University")]).

(** Lines 74-103 *)
Definition make_app (c : collaborators) : FastAPI :=
  let app :=
    new_app "Student Exchange Programs API"
            "API for managing international student exchange programs at Medi-Caps University"
            "1.0.0"
            (Lifespan.step (initialize_database c)) in
  let app := add_middleware (CORSMiddleware cors) app in
  let app := include_router (api_router c) app in
  get "/api/" root app.

(** Lines 106-118.  [os.getenv("PORT", 8000)] is the variable's string, or
    the integer 8000, and [int] of that integer is 8000. *)
Definition main : M unit :=
  port_var ← getenv "PORT";
  port ← match port_var with
         | Some s =>
             match int s with
             | Some n => mret n
             | None => raise (int_error s)
             end
         | None => mret 8000%Z
         end;
  emit (LogInfo ("🚀 Starting server on port " +:+ pretty port));;
  emit (UvicornRun "server:app" "0.0.0.0" port false).

(** The module, top to bottom. *)
Definition server (w : world) : M module :=
  c ← import_collaborators w;
  load_environment w;;
  configure_logging;;
  configure_cloudinary;;
  '(mongo_url, db_name, client, db) ← mongo_setup;
  let app := make_app c in
  (if run_as_main w then main else mret tt);;
  mret (Module_ mongo_url db_name client db app).

(** Running the module in a fresh process with environment [env]. *)
Definition import_server (w : world) (env : gmap string string)
  : process * outcome module :=
  server w (Process env []).

(** [os.environ] as the module leaves it after lines 23-26. *)
Definition environ_after_load (w : world) (env : gmap string string)
  : gmap string string :=
  match env !! "RENDER" with
  | None => env ∪ dotenv_file w
  | Some _ => env
  end.

(** The imports resolve to the package modules when both load, and to the
    local ones when the first attempt raises an [Exception]. *)
Definition resolve_imports (w : world) : outcome collaborators :=
  snd (import_collaborators w (Process ∅ [])).

(** The calls made before the database section is reached. *)
Definition dotenv_events (w : world) (env : gmap string string) : list event :=
  match env !! "RENDER" with
  | None => [LoadDotenv (root_dir w +:+ "/.env")]
  | Some _ => []
  end.

Definition prelude_events (w : world) (env : gmap string string) : list event :=
  let E := environ_after_load w env in
  dotenv_events w env ++
  [BasicConfig "INFO" log_format;
   CloudinaryConfig (E !! "CLOUDINARY_CLOUD_NAME") (E !! "CLOUDINARY_API_KEY")
                    (E !! "CLOUDINARY_API_SECRET") true;
   CloudinaryConfigRead;
   LogInfo ("Cloudinary ready: " +:+ str_of_optional (E !! "CLOUDINARY_CLOUD_NAME"))].

(** The names the module binds once the database section has passed. *)
Definition module_of (w : world) (env : gmap string string)
    (c : collaborators) (url : string) : module :=
  let cl := MotorClient url in
  let dbn := default "medicapsoia" (environ_after_load w env !! "DB_NAME") in
  Module_ url dbn cl (Database cl dbn) (make_app c).

(** The calls of the database section and of the main block. *)
Definition main_events (E : gmap string string) : list event :=
  let started n :=
    [LogInfo ("🚀 Starting server on port " +:+ pretty n);
     UvicornRun "server:app" "0.0.0.0" n false] in
  match E !! "PORT" with
  | None => started 8000%Z
  | Some s => match int s with Some n => started n | None => [] end
  end.

Definition database_events (w : world) (E : gmap string string) : list event :=
  match E !! "MONGO_URL" with
  | None => []
  | Some url =>
      if truthy url
      then AsyncIOMotorClient url :: (if run_as_main w then main_events E else [])
      else []
  end.

End Server.

(** ** Sample worlds and environments *)

Module Sample.
Import Server.

Definition programs (_ : request) : outcome json :=
  Ok (JObject [("programs", JString "[]")]).

Definition router : list route :=
  [Route "/api/programs" ["GET"]
     (λ req, bool_decide (req_path req = "/api/programs")) 200 programs].

Definition no_backend_package : exn :=
  Exn ImportError "No module named 'backend'".

(** Deployed: started from the repository root by an external runner. *)
Definition deployed : world :=
  World (Ok router) (Ok (Ok tt)) (Raise no_backend_package) (Raise no_backend_package)
        "/opt/render/project/src/backend" ∅ false.

(** Local: started inside backend/ as the main module, with an env file. *)
Definition local : world :=
  World (Raise no_backend_package) (Raise no_backend_package)
        (Ok router) (Ok (Raise (Exn (OtherException "ServerSelectionTimeoutError") "timed out")))
        "/home/dev/backend"
        (<["MONGO_URL" := "mongodb://localhost:27017"]>
           (<["CLOUDINARY_CLOUD_NAME" := "demo"]> ∅))
        true.

Definition deployed_names : collaborators := Collaborators router (Ok tt).
Definition local_names : collaborators :=
  Collaborators router
    (Raise (Exn (OtherException "ServerSelectionTimeoutError") "timed out")).

Definition env_deployed : gmap string string :=
  <["RENDER" := "true"]>
    (<["MONGO_URL" := "mongodb+srv://cluster0.example.net"]>
       (<["PORT" := "10000"]> ∅)).

(** [RENDER] is set, to the empty string, and [MONGO_URL] is missing. *)
Definition env_no_mongo : gmap string string :=
  <["RENDER" := ""]> (<["PORT" := "10000"]> ∅).

Definition env_empty_mongo : gmap string string :=
  <["RENDER" := "true"]> (<["MONGO_URL" := ""]> ∅).

Definition env_local : gmap string string :=
  <["HOME" := "/home/dev"]> ∅.

Definition env_local_port : gmap string string :=
  <["PORT" := " 8_080 "]> ∅.

Definition env_bad_port : gmap string string :=
  <["PORT" := "http"]> ∅.

Definition a_request : request :=
  Request "GET" "/api/" (Some "https://elsewhere.example") None "".

End Sample.

(** ** Further classes of calls, and further samples *)

Definition is_basic_config (e : event) : bool :=
  match e with BasicConfig _ _ => true | _ => false end.

Definition is_cloudinary_config (e : event) : bool :=
  match e with
  | CloudinaryConfig _ _ _ _ | CloudinaryConfigRead => true
  | _ => false
  end.

Definition is_log (e : event) : bool :=
  match e with LogInfo _ | LogError _ => true | _ => false end.

Module Sample2.
Import Server.


(** A router that has a route of its own for GET /api/. *)
Definition hello (_ : request) : outcome json :=
  Ok (JObject [("message", JString "Hello World")]).

Definition shadowing_router : list route :=
  Sample.router ++
  [Route "/api/" ["GET"]
     (λ req, bool_decide (req_method req = "GET") && bool_decide (req_path req = "/api/"))
     200 hello].

Definition shadowed : collaborators := Collaborators shadowing_router (Ok tt).

Definition env_port_443 : gmap string string :=
  <["PORT" := pretty 443%Z]> ∅.

End Sample2.

(** * Properties *)

(** ** Running module-level code *)

Section Running.
Import Server.

Lemma bind_run {A B} (m : M A) (f : A → M B) (p : process) :
  (m ≫= f) p =
  match m p with
  | (p', Ok a) => f a p'
  | (p', Raise e) => (p', Raise e)
  end.
Proof. reflexivity. Qed.

Lemma import_collaborators_pure (w : world) (p : process) :
  import_collaborators w p = (p, resolve_imports w).
Proof.
  unfold resolve_imports, import_collaborators, try_except.
  rewrite !bind_run. unfold lift.
  destruct (backend_routes w) as [r|e]; simpl.
  - destruct (backend_database w) as [i|e]; simpl; [reflexivity|].
    destruct (isinstance_Exception e); [|reflexivity].
    rewrite !bind_run.
    destruct (local_routes w); simpl; [|reflexivity].
    destruct (local_database w); reflexivity.
  - destruct (isinstance_Exception e); [|reflexivity].
    rewrite !bind_run.
    destruct (local_routes w); simpl; [|reflexivity].
    destruct (local_database w); reflexivity.
Qed.

(** The local imports are tried exactly when a package import raises an
    [Exception]; when they fail too, the import of the module fails. *)
Lemma import_fallback (w : world) :
  resolve_imports w =
  match backend_routes w, backend_database w with
  | Ok r, Ok i => Ok (Collaborators r i)
  | Raise e, _ | Ok _, Raise e =>
      if isinstance_Exception e then
        match local_routes w, local_database w with
        | Ok r, Ok i => Ok (Collaborators r i)
        | Raise e', _ | Ok _, Raise e' => Raise e'
        end
      else Raise e
  end.
Proof.
  unfold resolve_imports, import_collaborators, try_except, mbind, M_bind, lift.
  simpl.
  destruct (backend_routes w) as [r|e]; simpl.
  - destruct (backend_database w) as [i|e]; simpl; [reflexivity|].
    destruct (isinstance_Exception e); [|reflexivity].
    destruct (local_routes w); simpl; [|reflexivity].
    destruct (local_database w); reflexivity.
  - destruct (isinstance_Exception e); [|reflexivity].
    destruct (local_routes w); simpl; [|reflexivity].
    destruct (local_database w); reflexivity.
Qed.

Lemma load_environment_run (w : world) (env : gmap string string) :
  load_environment w (Process env []) =
  (Process (environ_after_load w env) (dotenv_events w env), Ok tt).
Proof.
  unfold load_environment, environ_after_load, dotenv_events.
  rewrite bind_run. unfold getenv. simpl.
  destruct (env !! "RENDER"); reflexivity.
Qed.

Lemma prelude_run (w : world) (env : gmap string string) :
  (load_environment w;; configure_logging;; configure_cloudinary) (Process env []) =
  (Process (environ_after_load w env) (prelude_events w env), Ok tt).
Proof.
  rewrite bind_run, load_environment_run.
  unfold configure_logging, configure_cloudinary, prelude_events.
  unfold mbind, M_bind, emit, getenv. simpl.
  rewrite <- !app_assoc. reflexivity.
Qed.

End Running.

Section ModuleRun.
Import Server.

Variable w : world.
Variable env : gmap string string.

Let E := environ_after_load w env.

Lemma server_import_fails (e : exn) :
  resolve_imports w = Raise e →
  import_server w env = (Process env [], Raise e).
Proof.
  intros H. unfold import_server, server.
  rewrite bind_run, import_collaborators_pure, H. reflexivity.
Qed.

Lemma server_reaches_database (c : collaborators) :
  resolve_imports w = Ok c →
  import_server w env =
  ('(mongo_url, db_name, client, db) ← mongo_setup;
    let app := make_app c in
    (if run_as_main w then main else mret tt);;
    mret (Module_ mongo_url db_name client db app))
    (Process E (prelude_events w env)).
Proof.
  intros H. unfold import_server, server.
  rewrite bind_run, import_collaborators_pure, H.
  unfold E, prelude_events, environ_after_load, dotenv_events.
  unfold load_environment, load_dotenv, configure_logging, configure_cloudinary.
  unfold mbind, M_bind, mret, M_ret, getenv, emit. simpl.
  destruct (env !! "RENDER"); reflexivity.
Qed.

Lemma server_falsy_url (c : collaborators) :
  resolve_imports w = Ok c →
  default "" (E !! "MONGO_URL") = "" →
  import_server w env = (Process E (prelude_events w env), Raise mongo_error).
Proof.
  intros H U. rewrite (server_reaches_database c H).
  unfold mongo_setup. rewrite !bind_run. unfold getenv. simpl.
  destruct (E !! "MONGO_URL") as [url|]; simpl in *; [|reflexivity].
  subst url. reflexivity.
Qed.

Lemma main_run (t : list event) :
  main (Process E t) =
  match E !! "PORT" with
  | None =>
      (Process E (t ++ [LogInfo ("🚀 Starting server on port " +:+ pretty 8000%Z);
                        UvicornRun "server:app" "0.0.0.0" 8000 false]), Ok tt)
  | Some s =>
      match int s with
      | Some n =>
          (Process E (t ++ [LogInfo ("🚀 Starting server on port " +:+ pretty n);
                            UvicornRun "server:app" "0.0.0.0" n false]), Ok tt)
      | None => (Process E t, Raise (int_error s))
      end
  end.
Proof.
  unfold main, mbind, M_bind, getenv, emit, raise. simpl.
  destruct (E !! "PORT") as [s|]; simpl.
  - destruct (int s) as [n|]; simpl; [|reflexivity].
    rewrite <- app_assoc. reflexivity.
  - rewrite <- app_assoc. reflexivity.
Qed.

Lemma server_with_url (c : collaborators) (url : string) :
  resolve_imports w = Ok c →
  E !! "MONGO_URL" = Some url → url ≠ "" →
  import_server w env =
  let t := prelude_events w env ++ [AsyncIOMotorClient url] in
  if run_as_main w then
    match main (Process E t) with
    | (p, Ok _) => (p, Ok (module_of w env c url))
    | (p, Raise e) => (p, Raise e)
    end
  else (Process E t, Ok (module_of w env c url)).
Proof.
  intros H U N. rewrite (server_reaches_database c H).
  unfold mongo_setup, mbind, M_bind, getenv, getenv_default, emit. simpl.
  rewrite U. destruct url as [|a url']; [congruence|]. simpl.
  destruct (run_as_main w); [|reflexivity].
  destruct (main _) as [p [[]|e]]; reflexivity.
Qed.

(** A variable the process environment has is unchanged by the env file. *)
Lemma environ_after_load_keeps (k v : string) :
  env !! k = Some v → E !! k = Some v.
Proof.
  intros H. unfold E, environ_after_load.
  destruct (env !! "RENDER"); [exact H|].
  apply lookup_union_Some_l, H.
Qed.

Lemma environ_after_load_None (k : string) :
  E !! k = None ↔
  env !! k = None ∧ (env !! "RENDER" = None → dotenv_file w !! k = None).
Proof.
  unfold E, environ_after_load.
  destruct (env !! "RENDER") as [r|].
  - split; [intros H; split; [exact H|discriminate] | intros [H _]; exact H].
  - rewrite lookup_union_None. split; intros [H1 H2]; split; auto.
Qed.

End ModuleRun.

(** ** The environment and the import of the module *)

Section Importing.
Import Server.

Variable w : world.
Variable env : gmap string string.

Let E := environ_after_load w env.

Lemma import_trace (c : collaborators) :
  resolve_imports w = Ok c →
  trace (fst (import_server w env)) = prelude_events w env ++ database_events w E.
Proof.
  intros H. unfold database_events. subst E.
  destruct (environ_after_load w env !! "MONGO_URL") as [url|] eqn:U.
  - destruct url as [|a url'].
    + rewrite (server_falsy_url w env c H); [|rewrite U; reflexivity].
      simpl. rewrite app_nil_r. reflexivity.
    + rewrite (server_with_url w env c _ H U); [|discriminate].
      simpl. unfold main_events.
      destruct (run_as_main w); [|reflexivity].
      rewrite main_run.
      destruct (environ_after_load w env !! "PORT") as [s|];
        [destruct (int s)|]; simpl; rewrite <- ?app_assoc; reflexivity.
  - rewrite (server_falsy_url w env c H); [|rewrite U; reflexivity].
    simpl. rewrite app_nil_r. reflexivity.
Qed.

Lemma count_app (f : event → bool) (t1 t2 : list event) :
  count f (t1 ++ t2) = (count f t1 + count f t2)%nat.
Proof. unfold count. rewrite filter_app, length_app. reflexivity. Qed.

Lemma prelude_no_client : count is_client_ctor (prelude_events w env) = 0%nat.
Proof.
  unfold prelude_events, dotenv_events.
  destruct (env !! "RENDER"); reflexivity.
Qed.

Lemma prelude_no_server : count is_server_start (prelude_events w env) = 0%nat.
Proof.
  unfold prelude_events, dotenv_events.
  destruct (env !! "RENDER"); reflexivity.
Qed.

End Importing.

Import Server.

(** C1.  When [MONGO_URL] is absent from the environment the check reads
    (os.environ after the optional env-file load), importing the module raises
    the [ValueError] of the check, and neither the database client nor a
    server has been started by then; when [MONGO_URL] is present and not
    empty, the check passes and [AsyncIOMotorClient] is called with its
    value.  Stated for a module whose two collaborator imports resolve. *)
Theorem mongo_url_required (w : world) (env : gmap string string) (c : collaborators) :
  resolve_imports w = Ok c →
  (environ_after_load w env !! "MONGO_URL" = None →
     snd (import_server w env)
       = Raise (Exn ValueError "❌ MONGO_URL not found in environment variables.")
     ∧ count is_client_ctor (trace (fst (import_server w env))) = 0%nat
     ∧ count is_server_start (trace (fst (import_server w env))) = 0%nat)
  ∧
  (∀ url : string,
     environ_after_load w env !! "MONGO_URL" = Some url → url ≠ "" →
     AsyncIOMotorClient url ∈ trace (fst (import_server w env))
     ∧ snd (import_server w env) ≠ Raise mongo_error
     ∧ (run_as_main w = false →
        snd (import_server w env) = Ok (module_of w env c url)
        ∧ client (module_of w env c url) = MotorClient url)).
Proof.
  intros H. split.
  - intros U.
    rewrite (import_trace w env c H). unfold database_events. rewrite U.
    rewrite app_nil_r, prelude_no_client, prelude_no_server.
    rewrite (server_falsy_url w env c H); [|rewrite U; reflexivity].
    auto.
  - intros url U N. split; [|split].
    + rewrite (import_trace w env c H). unfold database_events. rewrite U.
      destruct url as [|a url']; [congruence|]. simpl.
      apply elem_of_app. right. apply elem_of_cons. left. reflexivity.
    + rewrite (server_with_url w env c url H U N). simpl.
      destruct (run_as_main w); [|discriminate].
      rewrite main_run.
      destruct (environ_after_load w env !! "PORT") as [s|];
        [destruct (int s)|]; simpl; discriminate.
    + intros Hm. rewrite (server_with_url w env c url H U N). simpl.
      rewrite Hm. split; reflexivity.
Qed.

Lemma mongo_url_required_witness :
  snd (import_server Sample.deployed Sample.env_no_mongo) = Raise mongo_error
  ∧ snd (import_server Sample.deployed Sample.env_deployed)
    = Ok (module_of Sample.deployed Sample.env_deployed Sample.deployed_names
            "mongodb+srv://cluster0.example.net").
Proof.
  split.
  - destruct (mongo_url_required Sample.deployed Sample.env_no_mongo
                Sample.deployed_names eq_refl) as [Hmissing _].
    apply Hmissing. reflexivity.
  - destruct (mongo_url_required Sample.deployed Sample.env_deployed
                Sample.deployed_names eq_refl) as [_ Hpresent].
    destruct (Hpresent "mongodb+srv://cluster0.example.net") as (_ & _ & Hok).
    + reflexivity.
    + discriminate.
    + apply Hok. reflexivity.
Defined.

(** The env file can supply the variable: with [RENDER] unset and
    [MONGO_URL] only in the file, the check passes. *)
Lemma mongo_url_from_env_file :
  Sample.env_local !! "MONGO_URL" = None
  ∧ AsyncIOMotorClient "mongodb://localhost:27017"
      ∈ trace (fst (import_server Sample.local Sample.env_local)).
Proof. split; [reflexivity|]. vm_compute. set_solver. Qed.

(** With [RENDER] set, or with no [MONGO_URL] in the env file, a process
    environment without [MONGO_URL] fails the check. *)
Lemma mongo_url_absent_from_process (w : world) (env : gmap string string)
    (c : collaborators) :
  resolve_imports w = Ok c →
  env !! "MONGO_URL" = None →
  (env !! "RENDER" = None → dotenv_file w !! "MONGO_URL" = None) →
  import_server w env
  = (Process (environ_after_load w env) (prelude_events w env), Raise mongo_error).
Proof.
  intros H U F. apply (server_falsy_url w env c H).
  assert (environ_after_load w env !! "MONGO_URL" = None) as ->; [|reflexivity].
  apply environ_after_load_None. auto.
Qed.

(** Deleting [MONGO_URL] from the process environment changes no other
    variable the module reads. *)
Lemma environ_after_load_delete (w : world) (env : gmap string string) (k : string) :
  k ≠ "MONGO_URL" →
  environ_after_load w (delete "MONGO_URL" env) !! k = environ_after_load w env !! k.
Proof.
  intros N. unfold environ_after_load.
  rewrite lookup_delete_ne by discriminate.
  destruct (env !! "RENDER").
  - rewrite lookup_delete_ne by congruence. reflexivity.
  - rewrite !lookup_union, lookup_delete_ne by congruence. reflexivity.
Qed.

Lemma prelude_events_delete (w : world) (env : gmap string string) :
  prelude_events w (delete "MONGO_URL" env) = prelude_events w env.
Proof.
  unfold prelude_events, dotenv_events.
  rewrite !environ_after_load_delete by discriminate.
  rewrite lookup_delete_ne by discriminate. reflexivity.
Qed.

(** C8.  The check is on the truth value of the variable: with [MONGO_URL]
    set to the empty string the import raises the same [ValueError] as when
    the variable is absent, after the same calls. *)
Theorem empty_mongo_url_rejected (w : world) (env : gmap string string)
    (c : collaborators) :
  resolve_imports w = Ok c →
  env !! "MONGO_URL" = Some "" →
  snd (import_server w env)
    = Raise (Exn ValueError "❌ MONGO_URL not found in environment variables.")
  ∧ count is_client_ctor (trace (fst (import_server w env))) = 0%nat
  ∧ (∀ env' : gmap string string,
       environ_after_load w env' !! "MONGO_URL" = None →
       snd (import_server w env') = snd (import_server w env))
  ∧ (environ_after_load w (delete "MONGO_URL" env) !! "MONGO_URL" = None →
       trace (fst (import_server w (delete "MONGO_URL" env)))
       = trace (fst (import_server w env))).
Proof.
  intros H U.
  assert (import_server w env
          = (Process (environ_after_load w env) (prelude_events w env),
             Raise mongo_error)) as R.
  { apply (server_falsy_url w env c H).
    rewrite (environ_after_load_keeps w env _ _ U). reflexivity. }
  rewrite R. simpl. split; [reflexivity|]. split; [apply prelude_no_client|]. split.
  - intros env' U'. rewrite (server_falsy_url w env' c H); [reflexivity|].
    rewrite U'. reflexivity.
  - intros U'. rewrite (server_falsy_url w _ c H); [|rewrite U'; reflexivity].
    simpl. apply prelude_events_delete.
Qed.

Lemma empty_mongo_url_rejected_witness :
  snd (import_server Sample.deployed Sample.env_empty_mongo) = Raise mongo_error.
Proof.
  destruct (empty_mongo_url_rejected Sample.deployed Sample.env_empty_mongo
              Sample.deployed_names eq_refl eq_refl) as [Hraise _].
  exact Hraise.
Defined.

(** C6.  Lines 23-26 call [load_dotenv] exactly when [RENDER] is not in the
    environment; when [RENDER] is there, whatever its value, nothing is
    loaded and the environment is left as it was.  The same holds of the
    whole import once the collaborator imports have resolved. *)
Theorem dotenv_loaded_iff_render_unset (w : world) (env : gmap string string) :
  let p := fst (load_environment w (Process env [])) in
  (LoadDotenv (root_dir w +:+ "/.env") ∈ trace p ↔ env !! "RENDER" = None)
  ∧ (env !! "RENDER" = None →
       trace p = [LoadDotenv (root_dir w +:+ "/.env")]
       ∧ os_environ p = env ∪ dotenv_file w)
  ∧ (∀ v : string, env !! "RENDER" = Some v → trace p = [] ∧ os_environ p = env)
  ∧ (∀ c : collaborators, resolve_imports w = Ok c →
       count is_load_dotenv (trace (fst (import_server w env)))
       = match env !! "RENDER" with None => 1%nat | Some _ => 0%nat end).
Proof.
  simpl. rewrite load_environment_run. simpl.
  unfold dotenv_events, environ_after_load.
  split; [|split; [|split]].
  - destruct (env !! "RENDER") as [v|].
    + split; [intros X; inversion X | discriminate].
    + split; [reflexivity | intros _; apply list_elem_of_singleton; reflexivity].
  - intros ->. split; reflexivity.
  - intros v ->. split; reflexivity.
  - intros c H. rewrite (import_trace w env c H), count_app.
    assert (count is_load_dotenv (database_events w (environ_after_load w env)) = 0%nat)
      as ->.
    { unfold database_events, main_events.
      destruct (environ_after_load w env !! "MONGO_URL") as [url|]; [|reflexivity].
      destruct (truthy url); [|reflexivity].
      destruct (run_as_main w); [|reflexivity].
      destruct (environ_after_load w env !! "PORT") as [s|];
        [destruct (int s)|]; reflexivity. }
    unfold prelude_events, dotenv_events.
    destruct (env !! "RENDER"); reflexivity.
Qed.

(** [RENDER] set to the empty string still suppresses the load, and an
    environment without [RENDER] loads the file. *)
Lemma dotenv_loaded_iff_render_unset_witness :
  fst (load_environment Sample.local (Process Sample.env_no_mongo []))
  = Process Sample.env_no_mongo []
  ∧ trace (fst (load_environment Sample.local (Process Sample.env_local [])))
    = [LoadDotenv "/home/dev/backend/.env"].
Proof.
  split.
  - destruct (dotenv_loaded_iff_render_unset Sample.local Sample.env_no_mongo)
      as (_ & _ & Hset & _).
    destruct (Hset "" eq_refl) as [Ht He].
    destruct (fst (load_environment Sample.local (Process Sample.env_no_mongo [])))
      as [e t].
    simpl in Ht, He. rewrite Ht, He. reflexivity.
  - destruct (dotenv_loaded_iff_render_unset Sample.local Sample.env_local)
      as (_ & Hunset & _).
    destruct (Hunset eq_refl) as [Ht _]. exact Ht.
Defined.

(** C9.  The three Cloudinary variables are read and handed to
    [cloudinary.config] as they are, [None] for each one that is absent, and
    nothing checks them: once the collaborators are imported, an import can
    only fail on [MONGO_URL] or, in the main block, on [PORT]. *)
Theorem cloudinary_never_validated (w : world) (env : gmap string string)
    (c : collaborators) :
  resolve_imports w = Ok c →
  let E := environ_after_load w env in
  let t := trace (fst (import_server w env)) in
  CloudinaryConfig (E !! "CLOUDINARY_CLOUD_NAME") (E !! "CLOUDINARY_API_KEY")
                   (E !! "CLOUDINARY_API_SECRET") true ∈ t
  ∧ (E !! "CLOUDINARY_CLOUD_NAME" = None → E !! "CLOUDINARY_API_KEY" = None →
     E !! "CLOUDINARY_API_SECRET" = None →
     CloudinaryConfig None None None true ∈ t
     ∧ LogInfo "Cloudinary ready: None" ∈ t)
  ∧ (∀ e : exn, snd (import_server w env) = Raise e →
       (e = mongo_error ∧ default "" (E !! "MONGO_URL") = "")
       ∨ (run_as_main w = true ∧ ∃ s, E !! "PORT" = Some s ∧ e = int_error s))
  ∧ (∀ url : string, E !! "MONGO_URL" = Some url → url ≠ "" →
       run_as_main w = false →
       snd (import_server w env) = Ok (module_of w env c url)).
Proof.
  intros H E t.
  assert (CloudinaryConfig (E !! "CLOUDINARY_CLOUD_NAME") (E !! "CLOUDINARY_API_KEY")
            (E !! "CLOUDINARY_API_SECRET") true ∈ t
          ∧ LogInfo ("Cloudinary ready: " +:+ str_of_optional (E !! "CLOUDINARY_CLOUD_NAME"))
              ∈ t) as [Hcfg Hlog].
  { subst t. rewrite (import_trace w env c H). unfold prelude_events. fold E.
    split; apply elem_of_app; left; apply elem_of_app; right;
      rewrite !elem_of_cons; auto. }
  split; [exact Hcfg|]. split; [|split].
  - intros N1 N2 N3. rewrite N1, N2, N3 in Hcfg. rewrite N1 in Hlog. auto.
  - intros e R. subst E.
    destruct (environ_after_load w env !! "MONGO_URL") as [url|] eqn:U.
    + destruct (decide (url = "")) as [->|N].
      * rewrite (server_falsy_url w env c H) in R by (rewrite U; reflexivity).
        left. simpl in R. split; [congruence | reflexivity].
      * rewrite (server_with_url w env c url H U N) in R. simpl in R.
        destruct (run_as_main w); [|discriminate].
        rewrite main_run in R. right. split; [reflexivity|].
        destruct (environ_after_load w env !! "PORT") as [s|]; [|discriminate].
        destruct (int s); [discriminate|].
        exists s. simpl in R. split; congruence.
    + rewrite (server_falsy_url w env c H) in R by (rewrite U; reflexivity).
      left. simpl in R. split; [congruence | reflexivity].
  - intros url U N Hm. rewrite (server_with_url w env c url H U N). simpl.
    rewrite Hm. reflexivity.
Qed.

Lemma cloudinary_never_validated_witness :
  CloudinaryConfig None None None true
    ∈ trace (fst (import_server Sample.deployed Sample.env_deployed))
  ∧ snd (import_server Sample.deployed Sample.env_deployed)
    = Ok (module_of Sample.deployed Sample.env_deployed Sample.deployed_names
            "mongodb+srv://cluster0.example.net").
Proof.
  destruct (cloudinary_never_validated Sample.deployed Sample.env_deployed
              Sample.deployed_names eq_refl) as (_ & Hnone & _ & Hok).
  split.
  - apply Hnone; reflexivity.
  - apply Hok; [reflexivity | discriminate | reflexivity].
Defined.

Lemma prelude_starts_nothing (w : world) (env : gmap string string) :
  filter (λ e, is_server_start e = true) (prelude_events w env) = [].
Proof.
  unfold prelude_events, dotenv_events. destruct (env !! "RENDER"); reflexivity.
Qed.

(** C7.  Run as the main module, with the database section passed, the
    module starts exactly one server, on port 8000 when [PORT] is unset and
    on [int(PORT)] when [PORT] holds an integer literal; a [PORT] that is not
    one raises [ValueError] and no server is started. *)
Theorem listening_port (w : world) (env : gmap string string) (c : collaborators)
    (url : string) :
  resolve_imports w = Ok c →
  run_as_main w = true →
  environ_after_load w env !! "MONGO_URL" = Some url → url ≠ "" →
  let E := environ_after_load w env in
  let started :=
    filter (λ e, is_server_start e = true) (trace (fst (import_server w env))) in
  (E !! "PORT" = None → started = [UvicornRun "server:app" "0.0.0.0" 8000 false])
  ∧ (∀ (s : string) (n : Z), E !! "PORT" = Some s → int s = Some n →
       started = [UvicornRun "server:app" "0.0.0.0" n false])
  ∧ (∀ s : string, E !! "PORT" = Some s → int s = None →
       started = [] ∧ snd (import_server w env) = Raise (int_error s)).
Proof.
  intros H Hm U N E started. subst started E.
  rewrite (import_trace w env c H), filter_app, prelude_starts_nothing.
  rewrite (server_with_url w env c url H U N). simpl. rewrite Hm, main_run.
  unfold database_events, main_events. rewrite U, Hm.
  destruct url as [|a url']; [congruence|]. simpl.
  split; [|split].
  - intros ->. reflexivity.
  - intros s n -> ->. reflexivity.
  - intros s -> ->. split; reflexivity.
Qed.

Lemma listening_port_witness :
  filter (λ e, is_server_start e = true)
         (trace (fst (import_server Sample.local Sample.env_local)))
  = [UvicornRun "server:app" "0.0.0.0" 8000 false]
  ∧ filter (λ e, is_server_start e = true)
           (trace (fst (import_server Sample.local Sample.env_local_port)))
    = [UvicornRun "server:app" "0.0.0.0" 8080 false].
Proof.
  split.
  - destruct (listening_port Sample.local Sample.env_local Sample.local_names
                "mongodb://localhost:27017" eq_refl eq_refl eq_refl)
      as (Hdefault & _ & _); [discriminate|].
    apply Hdefault. reflexivity.
  - destruct (listening_port Sample.local Sample.env_local_port Sample.local_names
                "mongodb://localhost:27017" eq_refl eq_refl eq_refl)
      as (_ & Hset & _); [discriminate|].
    apply (Hset " 8_080 "); reflexivity.
Defined.

(** Imported by a runner instead, the module starts no server itself and
    does not read [PORT]. *)
Lemma not_main_starts_nothing (w : world) (env : gmap string string)
    (c : collaborators) :
  resolve_imports w = Ok c → run_as_main w = false →
  filter (λ e, is_server_start e = true) (trace (fst (import_server w env))) = [].
Proof.
  intros H Hm. rewrite (import_trace w env c H), filter_app, prelude_starts_nothing.
  unfold database_events. rewrite Hm.
  destruct (environ_after_load w env !! "MONGO_URL") as [url|]; [|reflexivity].
  destruct (truthy url); reflexivity.
Qed.

Lemma bad_port_example :
  snd (import_server Sample.local Sample.env_bad_port) = Raise (int_error "http")
  ∧ filter (λ e, is_server_start e = true)
           (trace (fst (import_server Sample.local Sample.env_bad_port))) = [].
Proof. split; reflexivity. Qed.

Lemma int_examples :
  int "8000" = Some 8000%Z ∧ int " +1_0 " = Some 10%Z ∧ int "-0" = Some 0%Z
  ∧ int "" = None ∧ int "1__2" = None ∧ int "+ 1" = None ∧ int "80a" = None.
Proof. repeat split. Qed.

(** ** The lifespan hook *)

Section LifespanProperties.
Import Lifespan.

Variable init : outcome unit.

(** The [finally] clause is the only place that closes the client, and it
    is where the generator finishes. *)
Lemma step_from_suspended (op : gen_op) (s : gen_state) :
  is_suspended s = true →
  count is_close (fst (step init op s))
  = (if is_finished (snd (step init op s)) then 1 else 0)%nat
  ∧ count is_init (fst (step init op s)) = 0%nat
  ∧ (is_finished (snd (step init op s)) = false →
     is_suspended (snd (step init op s)) = true).
Proof.
  intros Hs. destruct s; try discriminate; destruct op as [|e|]; simpl;
    unfold raised_in_try, finally_clause;
    try destruct (isinstance_Exception e); simpl; auto.
Qed.

Lemma step_from_finished (op : gen_op) :
  step init op Finished = ([], Finished).
Proof. destruct op; reflexivity. Qed.

Lemma drive_from_finished (ops : list gen_op) :
  drive init ops Finished = ([], Finished).
Proof.
  induction ops as [|op ops IH]; [reflexivity|].
  simpl. rewrite step_from_finished, IH. reflexivity.
Qed.

Lemma drive_cons (op : gen_op) (ops : list gen_op) (s : gen_state) :
  drive init (op :: ops) s
  = (fst (step init op s) ++ fst (drive init ops (snd (step init op s))),
     snd (drive init ops (snd (step init op s)))).
Proof.
  simpl. destruct (step init op s) as [t s']. simpl.
  destruct (drive init ops s') as [t' s'']. reflexivity.
Qed.

Lemma drive_from_suspended (ops : list gen_op) (s : gen_state) :
  is_suspended s = true →
  count is_close (fst (drive init ops s))
  = (if is_finished (snd (drive init ops s)) then 1 else 0)%nat
  ∧ count is_init (fst (drive init ops s)) = 0%nat.
Proof.
  revert s. induction ops as [|op ops IH]; intros s Hs.
  - destruct s; try discriminate; split; reflexivity.
  - rewrite drive_cons. simpl. rewrite !count_app.
    destruct (step_from_suspended op s Hs) as (Hc & Hi & Hnext).
    rewrite Hc, Hi.
    destruct (snd (step init op s)) eqn:S'; simpl in *.
    + specialize (Hnext eq_refl). discriminate.
    + destruct (IH AtFirstYield eq_refl) as [-> ->]. split; reflexivity.
    + destruct (IH AtSecondYield eq_refl) as [-> ->]. split; reflexivity.
    + rewrite drive_from_finished. split; reflexivity.
Qed.

(** The first [anext] calls the routine once and leaves the generator
    suspended, or finished with the client closed. *)
Lemma first_anext :
  let '(t, s, _) := anext init NotStarted in
  count is_init t = 1%nat
  ∧ count is_close t = (if is_finished s then 1 else 0)%nat
  ∧ (is_finished s = false → is_suspended s = true).
Proof.
  unfold anext, raised_in_try, finally_clause.
  destruct init as [[]|e]; simpl; [auto|].
  destruct (isinstance_Exception e); simpl; auto.
Qed.

Lemma drive_started (ops : list gen_op) :
  count is_close (fst (drive init (Anext :: ops) NotStarted))
  = (if is_finished (snd (drive init (Anext :: ops) NotStarted)) then 1 else 0)%nat
  ∧ count is_init (fst (drive init (Anext :: ops) NotStarted)) = 1%nat.
Proof.
  rewrite drive_cons. cbn [fst snd]. unfold step. rewrite !count_app.
  pose proof first_anext as F.
  destruct (anext init NotStarted) as [[t s] r]. cbn [fst snd].
  destruct F as (Fi & Fc & Fs). rewrite Fi, Fc.
  destruct s; simpl in *.
  - specialize (Fs eq_refl). discriminate.
  - destruct (drive_from_suspended ops AtFirstYield eq_refl) as [-> ->].
    split; reflexivity.
  - destruct (drive_from_suspended ops AtSecondYield eq_refl) as [-> ->].
    split; reflexivity.
  - rewrite drive_from_finished. split; reflexivity.
Qed.





End LifespanProperties.

(** C2, as the code has it.  An exception of class [Exception] raised by
    [initialize_database] is caught by the hook: the error is logged, the
    hook yields, so startup completes, and nothing is propagated; the routine
    is called once, whatever the driver does next. *)
Theorem init_exception_is_swallowed (e : exn) :
  isinstance_Exception e = true →
  Lifespan.anext (Raise e) Lifespan.NotStarted
  = ([InitializeDatabase;
      LogError ("❌ Failed to initialize database: " +:+ exn_str e)],
     Lifespan.AtSecondYield, Lifespan.Yielded)
  ∧ Lifespan.startup (Lifespan.run (Raise e) (Ok tt)) = Ok tt
  ∧ Lifespan.shutdown (Lifespan.run (Raise e) (Ok tt)) = Ok tt
  ∧ (∀ ops : list Lifespan.gen_op,
       count is_init
         (fst (Lifespan.drive (Raise e) (Lifespan.Anext :: ops) Lifespan.NotStarted))
       = 1%nat).
Proof.
  intros He.
  assert (Lifespan.anext (Raise e) Lifespan.NotStarted
          = ([InitializeDatabase; LogError (Lifespan.failed_msg e)],
             Lifespan.AtSecondYield, Lifespan.Yielded)) as A.
  { unfold Lifespan.anext, Lifespan.raised_in_try. rewrite He. reflexivity. }
  split; [exact A|]. split; [|split].
  - unfold Lifespan.run, Lifespan.aenter. rewrite A. reflexivity.
  - unfold Lifespan.run, Lifespan.aenter. rewrite A. reflexivity.
  - intros ops. apply drive_started.
Qed.

Lemma init_exception_is_swallowed_witness :
  Lifespan.startup
    (Lifespan.run (Raise (Exn (OtherException "ServerSelectionTimeoutError") "timed out"))
                  (Ok tt))
  = Ok tt.
Proof.
  destruct (init_exception_is_swallowed
              (Exn (OtherException "ServerSelectionTimeoutError") "timed out") eq_refl)
    as (_ & Hstart & _).
  exact Hstart.
Defined.

(** C2, as stated, fails: an exception that is not an [Exception], such as
    the [CancelledError] of a cancelled startup, a [KeyboardInterrupt] or a
    [SystemExit], passes the [except Exception] clause; the hook closes the
    client and lets it through without yielding. *)
Lemma cancelled_startup_propagates :
  Lifespan.anext (Raise (Exn CancelledError "")) Lifespan.NotStarted
  = ([InitializeDatabase; ClientClose; LogInfo "📪 Database connection closed"],
     Lifespan.Finished, Lifespan.Raised (Exn CancelledError ""))
  ∧ Lifespan.startup (Lifespan.run (Raise (Exn CancelledError "")) (Ok tt))
    = Raise (Exn CancelledError "")
  ∧ ¬ (∀ e : exn, Lifespan.startup (Lifespan.run (Raise e) (Ok tt)) = Ok tt).
Proof.
  split; [reflexivity|]. split; [reflexivity|].
  intros H. specialize (H (Exn CancelledError "")). discriminate H.
Qed.

(** What the hook does with the other exceptions, in general. *)
Lemma base_exception_propagates (e : exn) :
  isinstance_Exception e = false →
  Lifespan.anext (Raise e) Lifespan.NotStarted
  = ([InitializeDatabase; ClientClose; LogInfo Lifespan.closed_msg],
     Lifespan.Finished, Lifespan.Raised e)
  ∧ Lifespan.startup (Lifespan.run (Raise e) (Ok tt)) = Raise e.
Proof.
  intros He.
  assert (Lifespan.anext (Raise e) Lifespan.NotStarted
          = ([InitializeDatabase; ClientClose; LogInfo Lifespan.closed_msg],
             Lifespan.Finished, Lifespan.Raised e)) as A.
  { unfold Lifespan.anext, Lifespan.raised_in_try. rewrite He. reflexivity. }
  split; [exact A|].
  unfold Lifespan.run, Lifespan.aenter. rewrite A. reflexivity.
Qed.

(** A successful startup, for comparison. *)
Lemma init_success_yields :
  Lifespan.anext (Ok tt) Lifespan.NotStarted
  = ([InitializeDatabase;
      LogInfo "🚀 Student Exchange Programs API started successfully"],
     Lifespan.AtFirstYield, Lifespan.Yielded).
Proof. reflexivity. Qed.



(** When the serving phase itself raises an [Exception] after a successful
    startup, the exception arrives at the first [yield], inside the try
    block: the except clause takes it, the hook yields a second time and the
    context manager reports that the generator did not stop.  The client is
    closed when the generator is closed. *)
Lemma serving_exception_defers_close (e : exn) :
  isinstance_Exception e = true →
  let l := Lifespan.run (Ok tt) (Raise e) in
  Lifespan.final_state l = Lifespan.AtSecondYield
  ∧ count is_close (Lifespan.all_events l) = 0%nat
  ∧ Lifespan.shutdown l = Raise (Exn RuntimeError "generator didn't stop after athrow()")
  ∧ Lifespan.aclose (Lifespan.final_state l)
    = ([ClientClose; LogInfo Lifespan.closed_msg], Lifespan.Finished, Ok tt).
Proof.
  intros He. unfold Lifespan.run. simpl. unfold Lifespan.raised_in_try.
  rewrite He. simpl. auto.
Qed.

(** ** The application *)

(** The application an import leaves behind is the one built from the
    collaborators it imported. *)
Lemma imported_app (w : world) (env : gmap string string) (m : module) :
  snd (import_server w env) = Ok m →
  ∃ c : collaborators, resolve_imports w = Ok c ∧ app m = make_app c.
Proof.
  intros R. destruct (resolve_imports w) as [c|e] eqn:H.
  - exists c. split; [reflexivity|].
    destruct (environ_after_load w env !! "MONGO_URL") as [url|] eqn:U.
    + destruct (decide (url = "")) as [->|N].
      * rewrite (server_falsy_url w env c H) in R by (rewrite U; reflexivity).
        discriminate.
      * rewrite (server_with_url w env c url H U N) in R. simpl in R.
        destruct (run_as_main w).
        -- destruct (main _) as [p [[]|e]]; simpl in R; [|discriminate].
           injection R as <-. reflexivity.
        -- injection R as <-. reflexivity.
    + rewrite (server_falsy_url w env c H) in R by (rewrite U; reflexivity).
      discriminate.
  - rewrite (server_import_fails w env e H) in R. discriminate.
Qed.

(** A request that none of the first routes matches goes to the others. *)
Lemma dispatch_skips (rs1 rs2 : list app_route) (req : request) :
  Forall (λ ar, app_route_matches ar req = false) rs1 →
  dispatch (rs1 ++ rs2) req = dispatch rs2 req.
Proof.
  induction 1 as [|ar rs1 Hno _ IH]; [reflexivity|].
  destruct ar as [path|r]; simpl in *; rewrite Hno; exact IH.
Qed.

Lemma serve_not_preflight (c : collaborators) (req : request) :
  is_preflight req = false →
  serve (make_app c) req = dispatch (routes (make_app c)) req.
Proof. intros H. unfold serve. simpl. rewrite H. reflexivity. Qed.

Lemma routes_make_app (c : collaborators) :
  routes (make_app c)
  = framework_routes ++ (UserRoute <$> api_router c)
    ++ [UserRoute (get_route "/api/" root)].
Proof. reflexivity. Qed.

(** A GET on [/api/] reaches the root handler whenever no route of the
    router, included before it, takes the request. *)
Lemma root_served (c : collaborators) (req : request) :
  req_method req = "GET" → req_path req = "/api/" →
  Forall (λ r, matches r req = false) (api_router c) →
  serve (make_app c) req
  = Reply (Response 200
             (JObject [("message",
                        JString "Student Exchange Programs API - Medi-Caps University")])).
Proof.
  intros Hm Hp Hr.
  rewrite serve_not_preflight by (unfold is_preflight; rewrite Hm; reflexivity).
  rewrite routes_make_app.
  rewrite dispatch_skips.
  - rewrite dispatch_skips.
    + simpl. rewrite Hm, Hp. reflexivity.
    + apply Forall_fmap. exact Hr.
  - unfold framework_routes.
    repeat constructor; simpl; unfold framework_route_matches; rewrite Hp;
      reflexivity.
Qed.

(** C4.  The root handler takes nothing and always returns the fixed
    message; its route, the last one of the application, answers any request
    given to it with status 200 and that payload; and a GET on [/api/],
    whatever else the request carries and whatever [initialize_database]
    did, is answered by the application with status 200 and that payload,
    the routes of the router, included before, not taking the request. *)
Theorem root_endpoint (c : collaborators) (req : request) :
  root tt
  = Ok (JObject [("message",
                  JString "Student Exchange Programs API - Medi-Caps University")])
  ∧ last (routes (make_app c)) = Some (UserRoute (get_route "/api/" root))
  ∧ status_code (get_route "/api/" root) = 200%Z
  ∧ call_route (get_route "/api/" root) req
    = Reply (Response 200
               (JObject [("message",
                          JString "Student Exchange Programs API - Medi-Caps University")]))
  ∧ (req_method req = "GET" → req_path req = "/api/" →
     Forall (λ r, matches r req = false) (api_router c) →
     serve (make_app c) req
     = Reply (Response 200
                (JObject [("message",
                           JString "Student Exchange Programs API - Medi-Caps University")]))).
Proof.
  split; [reflexivity|]. split; [|split; [reflexivity|split; [reflexivity|]]].
  - rewrite routes_make_app, !app_assoc. apply last_snoc.
  - apply root_served.
Qed.

Lemma root_endpoint_witness :
  serve (make_app Sample.local_names) Sample.a_request
  = Reply (Response 200
             (JObject [("message",
                        JString "Student Exchange Programs API - Medi-Caps University")])).
Proof.
  destruct (root_endpoint Sample.local_names Sample.a_request) as (_ & _ & _ & _ & H).
  apply H; [reflexivity | reflexivity |].
  repeat constructor.
Defined.

(** C5.  The application has one middleware, the CORS middleware, with the
    options written in the file: five named origins followed by the
    wildcard, five methods, the wildcard for headers, credentials allowed.
    The options are the same whatever the collaborators and whatever
    environment the module was imported in. *)
Theorem cors_configuration (c : collaborators) :
  user_middleware (make_app c)
  = [CORSMiddleware
       {| allow_credentials := true;
          allow_origins :=
            ["https://io.medicaps.ac.in"; "http://localhost:3000";
             "http://127.0.0.1:3000"; "http://localhost:3001";
             "http://127.0.0.1:3001"] ++ ["*"];
          allow_methods := ["GET"; "POST"; "PUT"; "DELETE"; "OPTIONS"];
          allow_headers := ["*"] |}]
  ∧ (∀ (w : world) (env : gmap string string) (m : module),
       snd (import_server w env) = Ok m →
       user_middleware (app m) = user_middleware (make_app c)).
Proof.
  split; [reflexivity|].
  intros w env m R. destruct (imported_app w env m R) as (c' & _ & ->).
  reflexivity.
Qed.

Lemma cors_configuration_witness :
  user_middleware
    (app (module_of Sample.deployed Sample.env_deployed Sample.deployed_names
            "mongodb+srv://cluster0.example.net"))
  = user_middleware (make_app Sample.local_names).
Proof.
  destruct (cors_configuration Sample.local_names) as [_ Hsame].
  apply (Hsame Sample.deployed Sample.env_deployed). reflexivity.
Defined.

(** C10.  The wildcard is in the list of origins, so the middleware's test
    of an origin answers yes for every origin, named in the list or not;
    credentials are allowed all the same. *)
Theorem every_origin_allowed (c : collaborators) (origin : string) :
  allow_credentials cors = true
  ∧ allow_all_origins cors = true
  ∧ is_allowed_origin cors origin = true
  ∧ Forall (λ m, match m with
                 | CORSMiddleware o => is_allowed_origin o origin = true
                 end) (user_middleware (make_app c)).
Proof.
  assert (is_allowed_origin cors origin = true) as A.
  { unfold is_allowed_origin.
    replace (allow_all_origins cors) with true; reflexivity. }
  split; [reflexivity|]. split; [reflexivity|]. split; [exact A|].
  unfold make_app; simpl. constructor; [exact A | constructor].
Qed.

(** Without the wildcard the same test keeps to the named origins. *)
Lemma named_origins_only :
  let named :=
    {| allow_credentials := true;
       allow_origins :=
         ["https://io.medicaps.ac.in"; "http://localhost:3000";
          "http://127.0.0.1:3000"; "http://localhost:3001";
          "http://127.0.0.1:3001"];
       allow_methods := allow_methods cors;
       allow_headers := allow_headers cors |} in
  is_allowed_origin named "https://elsewhere.example" = false
  ∧ is_allowed_origin named "https://io.medicaps.ac.in" = true
  ∧ is_allowed_origin cors "https://elsewhere.example" = true.
Proof. repeat split. Qed.

(** * Further properties of the module *)

(** ** The collaborator imports (lines 13-20) *)

(** X1.  The router and the initialization routine always come from the same
    location: both from the package modules, which are preferred whenever
    both import, or both from the local modules, which are used only after a
    package import has raised an [Exception]. *)
Theorem collaborators_from_one_location (w : world) :
  (∀ (r : list route) (i : outcome unit),
     backend_routes w = Ok r → backend_database w = Ok i →
     resolve_imports w = Ok (Collaborators r i))
  ∧ (∀ c : collaborators, resolve_imports w = Ok c →
       (backend_routes w = Ok (api_router c)
        ∧ backend_database w = Ok (initialize_database c))
       ∨ (local_routes w = Ok (api_router c)
          ∧ local_database w = Ok (initialize_database c)
          ∧ ∃ e : exn, isinstance_Exception e = true
                       ∧ (backend_routes w = Raise e ∨ backend_database w = Raise e))).
Proof.
  rewrite import_fallback. split.
  - intros r i -> ->. reflexivity.
  - intros [r i]. simpl.
    destruct (backend_routes w) as [r0|e0]; [destruct (backend_database w) as [i0|e0]|].
    + intros [= -> ->]. left. split; reflexivity.
    + destruct (isinstance_Exception e0) eqn:He; [|discriminate].
      destruct (local_routes w) as [r1|e1]; [|discriminate].
      destruct (local_database w) as [i1|e1]; [|discriminate].
      intros [= -> ->]. right. split; [reflexivity|]. split; [reflexivity|].
      exists e0. auto.
    + destruct (isinstance_Exception e0) eqn:He; [|discriminate].
      destruct (local_routes w) as [r1|e1]; [|discriminate].
      destruct (local_database w) as [i1|e1]; [|discriminate].
      intros [= -> ->]. right. split; [reflexivity|]. split; [reflexivity|].
      exists e0. auto.
Qed.

Lemma collaborators_from_one_location_witness :
  local_routes Sample.local = Ok (api_router Sample.local_names)
  ∨ backend_routes Sample.local = Ok (api_router Sample.local_names).
Proof.
  destruct (collaborators_from_one_location Sample.local) as [_ H].
  destruct (H Sample.local_names eq_refl) as [[Hr _]|[Hr _]]; [right|left]; exact Hr.
Defined.



(** ** The environment (lines 23-26) and the database section (lines 48-54) *)

Lemma import_environ (w : world) (env : gmap string string) (c : collaborators) :
  resolve_imports w = Ok c →
  os_environ (fst (import_server w env)) = environ_after_load w env.
Proof.
  intros H.
  destruct (environ_after_load w env !! "MONGO_URL") as [url|] eqn:U.
  - destruct (decide (url = "")) as [->|N].
    + rewrite (server_falsy_url w env c H) by (rewrite U; reflexivity). reflexivity.
    + rewrite (server_with_url w env c url H U N). simpl.
      destruct (run_as_main w); [|reflexivity].
      rewrite main_run.
      destruct (environ_after_load w env !! "PORT") as [s|];
        [destruct (int s)|]; reflexivity.
  - rewrite (server_falsy_url w env c H) by (rewrite U; reflexivity). reflexivity.
Qed.

(** X3.  Importing the module never removes or changes a variable of the
    process environment: whatever the outcome, every variable keeps its
    value, a variable that appears comes from the env file and only when
    [RENDER] is unset, and with [RENDER] set the environment is left exactly
    as it was. *)
Theorem environment_only_grows (w : world) (env : gmap string string) :
  let p := fst (import_server w env) in
  (∀ k v : string, env !! k = Some v → os_environ p !! k = Some v)
  ∧ (∀ k v : string, os_environ p !! k = Some v →
       env !! k = Some v
       ∨ (env !! k = None ∧ env !! "RENDER" = None ∧ dotenv_file w !! k = Some v))
  ∧ (is_Some (env !! "RENDER") → os_environ p = env).
Proof.
  simpl. destruct (resolve_imports w) as [c|e] eqn:H.
  - rewrite (import_environ w env c H). unfold environ_after_load.
    destruct (env !! "RENDER") as [r|] eqn:R.
    + split; [auto|]. split; [auto|]. reflexivity.
    + split; [|split].
      * intros k v Hk. apply lookup_union_Some_l, Hk.
      * intros k v Hk. apply lookup_union_Some_raw in Hk.
        destruct Hk as [Hk|[Hn Hk]]; auto.
      * intros [r Hr]. discriminate.
  - rewrite (server_import_fails w env e H). simpl. auto.
Qed.

Lemma environment_only_grows_witness :
  os_environ (fst (import_server Sample.deployed Sample.env_deployed))
  = Sample.env_deployed.
Proof.
  destruct (environment_only_grows Sample.deployed Sample.env_deployed)
    as (_ & _ & Hsame).
  apply Hsame. exists "true". reflexivity.
Defined.

(** X4.  A module that imports successfully holds a consistent database
    handle: [mongo_url] is the value of [MONGO_URL] and is not empty, the
    client was built once, from that URL, the database belongs to that client
    and is named by [DB_NAME] when the variable is set (to anything, the
    empty string included) and "medicapsoia" otherwise. *)
Theorem imported_module_invariant (w : world) (env : gmap string string) (m : module) :
  snd (import_server w env) = Ok m →
  let E := environ_after_load w env in
  let t := trace (fst (import_server w env)) in
  E !! "MONGO_URL" = Some (mongo_url m)
  ∧ mongo_url m ≠ ""
  ∧ client m = MotorClient (mongo_url m)
  ∧ filter (λ e, is_client_ctor e = true) t = [AsyncIOMotorClient (mongo_url m)]
  ∧ db m = Database (client m) (db_name m)
  ∧ (∀ s : string, E !! "DB_NAME" = Some s → db_name m = s)
  ∧ (E !! "DB_NAME" = None → db_name m = "medicapsoia").
Proof.
  intros R E t. subst E t.
  destruct (resolve_imports w) as [c|e] eqn:H;
    [|rewrite (server_import_fails w env e H) in R; discriminate].
  assert (filter (λ e, is_client_ctor e = true) (prelude_events w env) = []) as P.
  { unfold prelude_events, dotenv_events. destruct (env !! "RENDER"); reflexivity. }
  rewrite (import_trace w env c H), filter_app, P. unfold database_events.
  destruct (environ_after_load w env !! "MONGO_URL") as [url|] eqn:U;
    [|rewrite (server_falsy_url w env c H) in R by (rewrite U; reflexivity);
      discriminate].
  destruct (decide (url = "")) as [->|N];
    [rewrite (server_falsy_url w env c H) in R by (rewrite U; reflexivity);
     discriminate|].
  assert (m = module_of w env c url) as ->.
  { rewrite (server_with_url w env c url H U N) in R. simpl in R.
    destruct (run_as_main w).
    - destruct (main _) as [p [[]|e]]; simpl in R; [|discriminate].
      injection R as <-. reflexivity.
    - injection R as <-. reflexivity. }
  assert (filter (λ e, is_client_ctor e = true)
            (if run_as_main w then main_events (environ_after_load w env) else [])
          = []) as Q.
  { destruct (run_as_main w); [|reflexivity]. unfold main_events.
    destruct (environ_after_load w env !! "PORT") as [s|];
      [destruct (int s)|]; reflexivity. }
  destruct url as [|a url']; [congruence|]. simpl.
  rewrite filter_cons_True by reflexivity. rewrite Q.
  unfold module_of. simpl.
  repeat split; try reflexivity; try assumption.
  - intros s ->. reflexivity.
  - intros ->. reflexivity.
Qed.

Lemma imported_module_invariant_witness :
  db_name (module_of Sample.deployed Sample.env_deployed Sample.deployed_names
             "mongodb+srv://cluster0.example.net")
  = "medicapsoia".
Proof.
  destruct (imported_module_invariant Sample.deployed Sample.env_deployed
              (module_of Sample.deployed Sample.env_deployed Sample.deployed_names
                 "mongodb+srv://cluster0.example.net") eq_refl)
    as (_ & _ & _ & _ & _ & _ & Hdefault).
  apply Hdefault. reflexivity.
Defined.

(** ** What an import calls, and what it depends on *)

Lemma count_cons (f : event → bool) (e : event) (t : list event) :
  count f (e :: t) = ((if f e then 1 else 0) + count f t)%nat.
Proof.
  unfold count. destruct (f e) eqn:F.
  - rewrite filter_cons_True by exact F. reflexivity.
  - rewrite filter_cons_False by (rewrite F; discriminate). reflexivity.
Qed.

Lemma count_nil (f : event → bool) : count f [] = 0%nat.
Proof. reflexivity. Qed.

Lemma count_prelude (w : world) (env : gmap string string) :
  count is_basic_config (prelude_events w env) = 1%nat
  ∧ count is_cloudinary_config (prelude_events w env) = 2%nat
  ∧ count is_close (prelude_events w env) = 0%nat
  ∧ count is_init (prelude_events w env) = 0%nat.
Proof.
  unfold prelude_events, dotenv_events.
  destruct (env !! "RENDER"); repeat split; reflexivity.
Qed.

Lemma count_database_events (w : world) (E : gmap string string) :
  count is_basic_config (database_events w E) = 0%nat
  ∧ count is_cloudinary_config (database_events w E) = 0%nat
  ∧ count is_close (database_events w E) = 0%nat
  ∧ count is_init (database_events w E) = 0%nat
  ∧ (count is_client_ctor (database_events w E) ≤ 1)%nat.
Proof.
  unfold database_events, main_events.
  destruct (E !! "MONGO_URL") as [url|]; [|rewrite !count_nil; repeat split; lia].
  destruct (truthy url); [|rewrite !count_nil; repeat split; lia].
  destruct (run_as_main w);
    [|rewrite !count_cons, !count_nil; simpl; repeat split; lia].
  destruct (E !! "PORT") as [s|]; [destruct (int s)|];
    rewrite !count_cons, ?count_nil; simpl; repeat split; lia.
Qed.

Lemma count_zero_not_in (f : event → bool) (t : list event) (e : event) :
  count f t = 0%nat → e ∈ t → f e = false.
Proof.
  unfold count. intros H He. apply length_zero_iff_nil in H.
  destruct (f e) eqn:F; [|reflexivity].
  exfalso. exact (filter_nil_not_elem_of _ t e H F He).
Qed.

(** A call of a kind that the first part of a trace does not contain lies in
    the second part. *)
Lemma split_past (f : event → bool) (P D t1 t2 : list event) (e : event) :
  count f P = 0%nat → f e = true →
  t1 ++ e :: t2 = P ++ D →
  ∃ d1 : list event, t1 = P ++ d1 ∧ D = d1 ++ e :: t2.
Proof.
  intros HP He Heq. apply app_eq_inv in Heq as [(k & -> & ->)|(k & -> & Hk)].
  - exists k. split; reflexivity.
  - destruct k as [|x k]; simpl in Hk.
    + exists []. rewrite !app_nil_r. split; [reflexivity | symmetry; exact Hk].
    + injection Hk as <- _.
      assert (f e = false) as F.
      { apply (count_zero_not_in f (t1 ++ e :: k)); [exact HP|].
        apply elem_of_app. right. apply elem_of_cons. left. reflexivity. }
      congruence.
Qed.

Lemma database_events_shape (w : world) (E : gmap string string) :
  database_events w E = []
  ∨ (∃ url : string, database_events w E = [AsyncIOMotorClient url])
  ∨ (∃ (url : string) (n : Z),
       database_events w E
       = [AsyncIOMotorClient url;
          LogInfo ("🚀 Starting server on port " +:+ pretty n);
          UvicornRun "server:app" "0.0.0.0" n false]).
Proof.
  unfold database_events, main_events.
  destruct (E !! "MONGO_URL") as [url|]; [|auto].
  destruct (truthy url); [|auto].
  destruct (run_as_main w); [|eauto].
  destruct (E !! "PORT") as [s|]; [destruct (int s)|]; eauto.
Qed.

Lemma client_is_first (w : world) (E : gmap string string)
    (d1 t2 : list event) (e : event) :
  database_events w E = d1 ++ e :: t2 → is_client_ctor e = true → d1 = [].
Proof.
  intros Hd He.
  destruct (database_events_shape w E) as [S|[(url & S)|(url & n & S)]];
    rewrite S in Hd; destruct d1 as [|x [|y [|z d1]]]; simplify_eq/=;
    try reflexivity; destruct d1; simplify_eq/=.
Qed.

Lemma server_start_is_last (w : world) (E : gmap string string)
    (d1 t2 : list event) (e : event) :
  database_events w E = d1 ++ e :: t2 → is_server_start e = true →
  count is_client_ctor d1 = 1%nat ∧ t2 = [].
Proof.
  intros Hd He.
  destruct (database_events_shape w E) as [S|[(url & S)|(url & n & S)]];
    rewrite S in Hd; destruct d1 as [|x [|y [|z d1]]]; simplify_eq/=;
    try (split; reflexivity); destruct d1; simplify_eq/=.
Qed.

(** X5.  Once its collaborators are imported, the module, whether or not it
    then fails, configures logging once and calls [cloudinary.config] twice
    (with the credentials, then without arguments for the cloud name it
    logs), and it never calls [initialize_database] or closes the client
    itself.  It builds at most one database client, after logging and
    Cloudinary have been configured; and when it starts a server, that is its
    last call, made after the one client has been built. *)
Theorem import_calls (w : world) (env : gmap string string) (c : collaborators) :
  resolve_imports w = Ok c →
  let t := trace (fst (import_server w env)) in
  count is_basic_config t = 1%nat
  ∧ count is_cloudinary_config t = 2%nat
  ∧ count is_init t = 0%nat
  ∧ count is_close t = 0%nat
  ∧ (count is_client_ctor t ≤ 1)%nat
  ∧ (∀ (t1 t2 : list event) (e : event),
       t = t1 ++ e :: t2 → is_client_ctor e = true →
       count is_basic_config t1 = 1%nat ∧ count is_cloudinary_config t1 = 2%nat
       ∧ count is_client_ctor t1 = 0%nat)
  ∧ (∀ (t1 t2 : list event) (e : event),
       t = t1 ++ e :: t2 → is_server_start e = true →
       count is_client_ctor t1 = 1%nat ∧ t2 = []).
Proof.
  intros H t. subst t. rewrite (import_trace w env c H), !count_app.
  destruct (count_prelude w env) as (Pb & Pc & -> & ->).
  rewrite Pb, Pc, prelude_no_client.
  destruct (count_database_events w (environ_after_load w env))
    as (-> & -> & -> & -> & ?).
  split; [reflexivity|]. split; [reflexivity|]. split; [reflexivity|].
  split; [reflexivity|]. split; [simpl; lia|]. split.
  - intros t1 t2 e Heq He. symmetry in Heq.
    destruct (split_past is_client_ctor _ _ _ _ _ (prelude_no_client w env) He Heq)
      as (d1 & -> & Hd).
    rewrite (client_is_first _ _ _ _ _ Hd He), app_nil_r.
    rewrite Pb, Pc, prelude_no_client. auto.
  - intros t1 t2 e Heq He. symmetry in Heq.
    destruct (split_past is_server_start _ _ _ _ _ (prelude_no_server w env) He Heq)
      as (d1 & -> & Hd).
    destruct (server_start_is_last _ _ _ _ _ Hd He) as [Hc ->].
    rewrite count_app, prelude_no_client, Hc. auto.
Qed.

Lemma import_calls_witness :
  count is_cloudinary_config
    (trace (fst (import_server Sample.deployed Sample.env_no_mongo))) = 2%nat.
Proof.
  destruct (import_calls Sample.deployed Sample.env_no_mongo Sample.deployed_names
              eq_refl) as (_ & H & _).
  exact H.
Defined.

(** X7.  The log lines of an import are, in this order, the Cloudinary line
    with the cloud name and, only when a server is started, the start line
    with the port given to [uvicorn.run]; nothing else is logged, so the API
    key, the API secret and the database URL never reach the log. *)
Theorem import_log_lines (w : world) (env : gmap string string) (c : collaborators) :
  resolve_imports w = Ok c →
  let t := trace (fst (import_server w env)) in
  let cloudinary_line :=
    LogInfo ("Cloudinary ready: "
             +:+ str_of_optional (environ_after_load w env !! "CLOUDINARY_CLOUD_NAME")) in
  (filter (λ e, is_log e = true) t = [cloudinary_line]
   ∧ filter (λ e, is_server_start e = true) t = [])
  ∨ (∃ n : Z,
       filter (λ e, is_log e = true) t
       = [cloudinary_line; LogInfo ("🚀 Starting server on port " +:+ pretty n)]
       ∧ filter (λ e, is_server_start e = true) t
         = [UvicornRun "server:app" "0.0.0.0" n false]
       ∧ run_as_main w = true).
Proof.
  intros H t cloudinary_line. subst t cloudinary_line.
  rewrite (import_trace w env c H), !filter_app, prelude_starts_nothing.
  assert (filter (λ e, is_log e = true) (prelude_events w env)
          = [LogInfo ("Cloudinary ready: "
                      +:+ str_of_optional
                            (environ_after_load w env !! "CLOUDINARY_CLOUD_NAME"))])
    as ->.
  { unfold prelude_events, dotenv_events. destruct (env !! "RENDER"); reflexivity. }
  unfold database_events, main_events.
  destruct (environ_after_load w env !! "MONGO_URL") as [url|]; [|left; split; reflexivity].
  destruct (truthy url); [|left; split; reflexivity].
  destruct (run_as_main w); [|left; split; reflexivity].
  destruct (environ_after_load w env !! "PORT") as [s|];
    [destruct (int s) as [n|]; [|left; split; reflexivity]|].
  - right. exists n. repeat split; reflexivity.
  - right. exists 8000%Z. repeat split; reflexivity.
Qed.

Lemma import_log_lines_witness :
  filter (λ e, is_log e = true)
         (trace (fst (import_server Sample.deployed Sample.env_deployed)))
  = [LogInfo "Cloudinary ready: None"].
Proof.
  destruct (import_log_lines Sample.deployed Sample.env_deployed
              Sample.deployed_names eq_refl) as [[H _]|(n & _ & H & _)].
  - exact H.
  - discriminate H.
Defined.

(** ** The main block (lines 106-118): reading back a port number *)

Lemma pretty_N_char_digit (d : N) :
  (d < 10)%N →
  is_digit (pretty_N_char d) = true
  ∧ digit_value (pretty_N_char d) = Z.of_N d
  ∧ ∀ s : string, int (String (pretty_N_char d) s)
                  = int_digits NoDigit 0 (String (pretty_N_char d) s).
Proof.
  intros Hd.
  assert (d = 0 ∨ d = 1 ∨ d = 2 ∨ d = 3 ∨ d = 4 ∨ d = 5 ∨ d = 6 ∨ d = 7
          ∨ d = 8 ∨ d = 9)%N as D by lia.
  repeat (destruct D as [->|D]); subst; repeat split; reflexivity.
Qed.

Lemma int_digits_pretty_go (x : N) :
  ∀ (s : string) (st : digits_state),
    (0 < x)%N →
    int_digits st 0 (pretty_N_go x s) = int_digits AfterDigit (Z.of_N x) s.
Proof.
  induction (N.lt_wf_0 x) as [x _ IH]. intros s st Hx.
  rewrite pretty_N_go_step by exact Hx.
  pose proof (N.mod_lt x 10 ltac:(discriminate)) as Hd.
  destruct (pretty_N_char_digit (x `mod` 10)%N Hd) as (Hdig & Hval & _).
  assert (Z.of_N x = 10 * Z.of_N (x `div` 10) + Z.of_N (x `mod` 10))%Z as Hx10.
  { rewrite (N.div_mod x 10) at 1 by discriminate. lia. }
  destruct (decide (x `div` 10 = 0)%N) as [Hq|Hq].
  - rewrite Hq, pretty_N_go_0 in *. simpl. rewrite Hdig, Hval, Hx10. reflexivity.
  - rewrite IH; [|apply N.div_lt; lia|lia].
    simpl. rewrite Hdig, Hval, Hx10. reflexivity.
Qed.

Lemma pretty_go_head (x : N) :
  ∀ s : string, (0 < x)%N →
    ∃ (d : N) (s' : string), (d < 10)%N ∧ pretty_N_go x s = String (pretty_N_char d) s'.
Proof.
  induction (N.lt_wf_0 x) as [x _ IH]. intros s Hx.
  rewrite pretty_N_go_step by exact Hx.
  destruct (decide (x `div` 10 = 0)%N) as [Hq|Hq].
  - rewrite Hq, pretty_N_go_0. exists (x `mod` 10)%N, s.
    split; [apply N.mod_lt; discriminate | reflexivity].
  - apply IH; [apply N.div_lt; lia | apply N.neq_0_lt_0, Hq].
Qed.

Lemma int_pretty_positive (p : positive) :
  int (pretty_N_go (N.pos p) "") = Some (Z.pos p)
  ∧ int_digits NoDigit 0 (pretty_N_go (N.pos p) "") = Some (Z.pos p).
Proof.
  assert (int_digits NoDigit 0 (pretty_N_go (N.pos p) "") = Some (Z.pos p)) as G.
  { rewrite int_digits_pretty_go by lia. reflexivity. }
  split; [|exact G].
  destruct (pretty_go_head (N.pos p) "" ltac:(lia)) as (d & s' & Hd & Hs).
  rewrite Hs in *.
  destruct (pretty_N_char_digit d Hd) as (_ & _ & Hint). rewrite Hint. exact G.
Qed.

(** The parser above, which sets no limit on the length of a numeral, reads
    back the decimal numeral of an integer. *)
Lemma int_pretty (n : Z) : int (pretty n) = Some n.
Proof.
  destruct n as [|p|p]; [reflexivity| |].
  - apply (int_pretty_positive p).
  - change (pretty (Z.neg p)) with (String "-" (pretty_N_go (N.pos p) "")).
    change (int (String "-" (pretty_N_go (N.pos p) "")))
      with (Z.opp <$> int_digits NoDigit 0 (pretty_N_go (N.pos p) "")).
    destruct (int_pretty_positive p) as [_ ->]. reflexivity.
Qed.

(** X8.  Run as the main module with [PORT] holding the decimal numeral of a
    port number, from 0 to 65535, the module starts the server on exactly
    that port, and the start line it logs shows the same numeral. *)
Theorem port_numeral_is_read_back (w : world) (env : gmap string string)
    (c : collaborators) (url : string) (n : Z) :
  resolve_imports w = Ok c →
  run_as_main w = true →
  environ_after_load w env !! "MONGO_URL" = Some url → url ≠ "" →
  (0 ≤ n ≤ 65535)%Z →
  environ_after_load w env !! "PORT" = Some (pretty n) →
  filter (λ e, is_server_start e = true) (trace (fst (import_server w env)))
  = [UvicornRun "server:app" "0.0.0.0" n false]
  ∧ LogInfo ("🚀 Starting server on port " +:+ pretty n)
      ∈ trace (fst (import_server w env))
  ∧ snd (import_server w env) = Ok (module_of w env c url).
Proof.
  intros H Hm U N _ Hp.
  rewrite (import_trace w env c H), filter_app, prelude_starts_nothing.
  rewrite (server_with_url w env c url H U N). simpl. rewrite Hm, main_run.
  unfold database_events, main_events. rewrite U, Hm, Hp, int_pretty.
  destruct url as [|a url']; [congruence|]. simpl.
  split; [reflexivity|]. split; [|reflexivity].
  apply elem_of_app. right. rewrite !elem_of_cons. auto.
Qed.

Lemma port_numeral_is_read_back_witness :
  filter (λ e, is_server_start e = true)
         (trace (fst (import_server Sample.local Sample2.env_port_443)))
  = [UvicornRun "server:app" "0.0.0.0" 443 false].
Proof.
  destruct (port_numeral_is_read_back Sample.local Sample2.env_port_443
              Sample.local_names "mongodb://localhost:27017" 443
              eq_refl eq_refl eq_refl) as [H _];
    [discriminate | lia | reflexivity |].
  exact H.
Defined.

(** ** The lifespan hook under a failing serving phase (lines 57-71) *)

(** X10.  An [Exception] raised by the serving phase after a successful
    startup arrives at the first [yield], inside the try block: the hook logs
    it as a failure to initialize the database, after having logged a
    successful start, yields again, and the [async with] statement raises
    [RuntimeError] in place of the exception. *)
Theorem serving_exception_is_logged_as_init_failure (e : exn) :
  isinstance_Exception e = true →
  let l := Lifespan.run (Ok tt) (Raise e) in
  Lifespan.startup_events l
  = [InitializeDatabase;
     LogInfo "🚀 Student Exchange Programs API started successfully"]
  ∧ Lifespan.shutdown_events l
    = [LogError ("❌ Failed to initialize database: " +:+ exn_str e)]
  ∧ Lifespan.shutdown l
    = Raise (Exn RuntimeError "generator didn't stop after athrow()").
Proof.
  intros He. unfold Lifespan.run. simpl. unfold Lifespan.raised_in_try.
  rewrite He. simpl. auto.
Qed.

Lemma serving_exception_is_logged_as_init_failure_witness :
  Lifespan.shutdown_events
    (Lifespan.run (Ok tt) (Raise (Exn (OtherException "ConnectionResetError") "peer")))
  = [LogError "❌ Failed to initialize database: peer"].
Proof.
  destruct (serving_exception_is_logged_as_init_failure
              (Exn (OtherException "ConnectionResetError") "peer") eq_refl)
    as (_ & H & _).
  exact H.
Defined.

(** X11.  In every other case an exception of the serving phase leaves the
    [async with] statement unchanged, after the client has been closed: when
    it is not an [Exception], and when startup had already failed, so that
    the hook waits at its second [yield], outside the try block. *)
Theorem serving_exception_propagates (init : outcome unit) (e : exn) :
  Lifespan.startup (Lifespan.run init (Raise e)) = Ok tt →
  isinstance_Exception e = false ∨ (∃ e0 : exn, init = Raise e0) →
  let l := Lifespan.run init (Raise e) in
  Lifespan.shutdown l = Raise e
  ∧ Lifespan.shutdown_events l = [ClientClose; LogInfo "📪 Database connection closed"]
  ∧ Lifespan.final_state l = Lifespan.Finished.
Proof.
  unfold Lifespan.run, Lifespan.aenter, Lifespan.aexit, Lifespan.anext,
    Lifespan.athrow, Lifespan.raised_in_try, Lifespan.finally_clause.
  destruct init as [[]|e0].
  - simpl. intros _ [He|[e0 H0]]; [|discriminate]. rewrite He. simpl. auto.
  - destruct (isinstance_Exception e0); simpl; [auto|discriminate].
Qed.

Lemma serving_exception_propagates_witness :
  Lifespan.shutdown (Lifespan.run (Ok tt) (Raise (Exn CancelledError "")))
  = Raise (Exn CancelledError "").
Proof.
  destruct (serving_exception_propagates (Ok tt) (Exn CancelledError "") eq_refl)
    as [H _]; [left; reflexivity|].
  exact H.
Defined.

(** X12.  Closing the hook never fails: from either [yield] the
    [GeneratorExit] passes the except clause, the finally clause closes the
    client once and the hook finishes; before the start and after the end
    closing does nothing, and does not call [initialize_database]. *)
Theorem aclose_always_finishes (s : Lifespan.gen_state) :
  snd (Lifespan.aclose s) = Ok tt
  ∧ snd (fst (Lifespan.aclose s)) = Lifespan.Finished
  ∧ fst (fst (Lifespan.aclose s))
    = (if Lifespan.is_suspended s
       then [ClientClose; LogInfo "📪 Database connection closed"] else [])
  ∧ ∀ (init : outcome unit) (ops : list Lifespan.gen_op),
      Lifespan.drive init ops (snd (fst (Lifespan.aclose s))) = ([], Lifespan.Finished).
Proof.
  assert (snd (fst (Lifespan.aclose s)) = Lifespan.Finished) as F
    by (destruct s; reflexivity).
  split; [destruct s; reflexivity|]. split; [exact F|].
  split; [destruct s; reflexivity|].
  intros init ops. rewrite F. apply drive_from_finished.
Qed.

(** ** The application and its routes (lines 74-103) *)

Lemma dispatch_router (rs : list route) (rest : list app_route) (req : request) :
  dispatch ((UserRoute <$> rs) ++ rest) req
  = match List.find (λ r, matches r req) rs with
    | Some r => call_route r req
    | None => dispatch rest req
    end.
Proof.
  induction rs as [|r rs IH]; [reflexivity|].
  simpl. destruct (matches r req); [reflexivity | exact IH].
Qed.

(** X13.  The application's routes are the framework's documentation routes,
    then those of the router, included before the root endpoint is declared,
    then the root route.  So a request that is not a CORS preflight and not
    for a documentation page is answered by the first route of the router
    that matches it, for GET /api/ as for any other request, and reaches the
    root route only when no route of the router matches. *)
Theorem router_routes_come_first (c : collaborators) (req : request) :
  routes (make_app c)
  = framework_routes ++ (UserRoute <$> api_router c)
    ++ [UserRoute (get_route "/api/" root)]
  ∧ (is_preflight req = false →
     Forall (λ ar, app_route_matches ar req = false) framework_routes →
     (∀ r : route,
        List.find (λ r, matches r req) (api_router c) = Some r →
        serve (make_app c) req = call_route r req)
     ∧ (List.find (λ r, matches r req) (api_router c) = None →
        serve (make_app c) req
        = if matches (get_route "/api/" root) req
          then Reply (Response 200
                        (JObject [("message",
                                   JString "Student Exchange Programs API - Medi-Caps University")]))
          else Unrouted)).
Proof.
  split; [apply routes_make_app|].
  intros Hp Hf. rewrite (serve_not_preflight c req Hp), routes_make_app.
  rewrite (dispatch_skips _ _ _ Hf), dispatch_router. split.
  - intros r ->. reflexivity.
  - intros ->. simpl. destruct (_ && _); reflexivity.
Qed.

Lemma router_routes_come_first_witness :
  serve (make_app Sample2.shadowed) Sample.a_request
  = Reply (Response 200 (JObject [("message", JString "Hello World")])).
Proof.
  destruct (router_routes_come_first Sample2.shadowed Sample.a_request)
    as (_ & H).
  destruct H as [H _]; [reflexivity | repeat constructor |].
  apply (H (Route "/api/" ["GET"]
              (λ req, bool_decide (req_method req = "GET")
                      && bool_decide (req_path req = "/api/"))
              200 Sample2.hello)).
  reflexivity.
Defined.
